(** * ai-ocr: the OCR -> LLM gateway -> JSON pipeline of [main.py]

    A shallow embedding of [main.py] and the properties of its
    specification.  The script chains three external services; the
    embedding keeps the code's own logic (text combination, fence
    stripping, sequencing, exception propagation) executable and takes
    the answers of the external services from a [World] record.

    Layout: Python values and library functions used by the script
    ([Py], [Json]), the effect monad, the classes of [main.py] in source
    order, fixtures, and then the lemmas and theorems. *)

From Stdlib Require Import String Ascii.
From Stdlib.Strings Require Import Byte.
From Stdlib Require Import List NArith ZArith Bool Lia.
Import ListNotations.

Set Implicit Arguments.
Set Warnings "-register-all".

(** ** Python values *)

Module Py.

(** A Python [str] is a sequence of Unicode code points. *)
Definition pystr := list N.

(** A Python [bytes] object. *)
Definition pybytes := list byte.

(** ASCII literals of the source text. *)
Definition str (s : string) : pystr :=
  List.map N_of_ascii (list_ascii_of_string s).

(** The escape ["\n"]. *)
Definition nl : pystr := [10%N].

Fixpoint eqb (a b : pystr) : bool :=
  match a, b with
  | [], [] => true
  | x :: a', y :: b' => N.eqb x y && eqb a' b'
  | _, _ => false
  end.

(** [s.startswith(prefix)] *)
Fixpoint startswith (s prefix : pystr) {struct prefix} : bool :=
  match prefix, s with
  | [], _ => true
  | p :: prefix', c :: s' => N.eqb c p && startswith s' prefix'
  | _ :: _, [] => false
  end.

(** [s.endswith(suffix)] *)
Definition endswith (s suffix : pystr) : bool :=
  (length suffix <=? length s)%nat
  && eqb (skipn (length s - length suffix) s) suffix.

(** Index normalisation of a slice bound: a negative bound counts from
    the end, and the result is clamped to [0, len]. *)
Definition clamp (len i : Z) : Z :=
  let i' := if (i <? 0)%Z then (i + len)%Z else i in
  Z.max 0 (Z.min len i').

(** [s[start:stop]] *)
Definition slice (start stop : Z) (s : pystr) : pystr :=
  let len := Z.of_nat (length s) in
  let lo := clamp len start in
  let hi := clamp len stop in
  firstn (Z.to_nat (hi - lo)) (skipn (Z.to_nat lo) s).

(** [str.isspace] on one code point: the characters [str.strip()]
    removes. *)
Definition isspace (c : N) : bool :=
  ((9 <=? c) && (c <=? 13)          (* \t \n \v \f \r *)
   || (28 <=? c) && (c <=? 32)      (* FS GS RS US and the space *)
   || (c =? 133) || (c =? 160)      (* NEL, NBSP *)
   || (c =? 5760)
   || (8192 <=? c) && (c <=? 8202)
   || (c =? 8232) || (c =? 8233) || (c =? 8239) || (c =? 8287)
   || (c =? 12288))%N.

Fixpoint lstrip (s : pystr) : pystr :=
  match s with
  | c :: s' => if isspace c then lstrip s' else s
  | [] => []
  end.

Definition rstrip (s : pystr) : pystr := rev (lstrip (rev s)).

(** [s.strip()] *)
Definition strip (s : pystr) : pystr := rstrip (lstrip s).

(** The exceptions the script can meet.  All of them derive from
    [Exception]; [ValidationError] is pydantic's, the only class the two
    [except ValidationError] clauses of the script catch. *)
Inductive exn : Type :=
| UnicodeDecodeError
| JSONDecodeError (doc : pystr)   (* the [doc] attribute: the text given to [json.loads] *)
| ValueError                      (* [int()] refused a literal of too many digits *)
| KeyError (key : pystr)
| TypeError
| IndexError
| AttributeError
| ValidationError
| TimeoutError                    (* [operation.result(timeout=...)] ran out of time *)
| ServiceError (msg : pystr).     (* raised inside a client library *)

Definition is_ValidationError (e : exn) : bool :=
  match e with ValidationError => true | _ => false end.

(** The outcome of a Python expression: a value or a raised exception. *)
Inductive result (A : Type) : Type :=
| Ok (a : A)
| Raise (e : exn).
Arguments Raise {A} e.

(** An outcome that is not a pydantic [ValidationError]. *)
Definition no_validation_error {A} (r : result A) : Prop :=
  forall e, r = Raise e -> is_ValidationError e = false.

Definition rbind {A B} (r : result A) (k : A -> result B) : result B :=
  match r with
  | Ok a => k a
  | Raise e => Raise e
  end.

(** *** [bytes.decode("utf-8")], strict error handling *)

Definition is_cont (b : N) : bool := ((128 <=? b) && (b <=? 191))%N.

(** The six low bits of a continuation byte. *)
Definition low6 (b : N) : N := N.land b 63.

Fixpoint utf8_decode (bs : list N) : option pystr :=
  match bs with
  | [] => Some []
  | b0 :: r0 =>
    if (b0 <? 128)%N then option_map (cons b0) (utf8_decode r0)
    else if ((194 <=? b0) && (b0 <=? 223))%N then
      match r0 with
      | b1 :: r1 =>
        if is_cont b1
        then option_map (cons (N.shiftl (N.land b0 31) 6 + low6 b1)%N)
                        (utf8_decode r1)
        else None
      | _ => None
      end
    else if ((224 <=? b0) && (b0 <=? 239))%N then
      match r0 with
      | b1 :: b2 :: r2 =>
        let c := (N.shiftl (N.land b0 15) 12 + N.shiftl (low6 b1) 6 + low6 b2)%N in
        if is_cont b1 && is_cont b2
           && (2048 <=? c)%N                          (* not overlong *)
           && negb ((55296 <=? c) && (c <=? 57343))%N (* no surrogate *)
        then option_map (cons c) (utf8_decode r2)
        else None
      | _ => None
      end
    else if ((240 <=? b0) && (b0 <=? 244))%N then
      match r0 with
      | b1 :: b2 :: b3 :: r3 =>
        let c := (N.shiftl (N.land b0 7) 18 + N.shiftl (low6 b1) 12
                  + N.shiftl (low6 b2) 6 + low6 b3)%N in
        if is_cont b1 && is_cont b2 && is_cont b3
           && (65536 <=? c)%N && (c <=? 1114111)%N
        then option_map (cons c) (utf8_decode r3)
        else None
      | _ => None
      end
    else None
  end.

Definition decode_utf8 (b : pybytes) : result pystr :=
  match utf8_decode (List.map Byte.to_N b) with
  | Some s => Ok s
  | None => Raise UnicodeDecodeError
  end.

(** ASCII text as [bytes] (the encoding of an ASCII [str] literal). *)
Definition bytes (s : string) : pybytes := list_byte_of_string s.

End Py.
Export Py.

Notation "x <-- r ;; k" := (rbind r (fun x => k))
  (at level 61, r at next level, right associativity).

(** ** [json.loads]

    The decoder of Python's standard library, after [json/decoder.py]
    and [json/scanner.py]: the RFC 8259 grammar, the whitespace set
    [" \t\n\r"], strict strings (no raw control character), the
    constants [NaN], [Infinity] and [-Infinity], and [dict] semantics for
    repeated keys.  A Python [int] is unbounded, hence [Z]; a [float] is
    kept as the text that [float()] would be given.  The message and
    position of a [JSONDecodeError] are left out, its [doc] is kept.
    The interpreter's limit on the digits of an [int] literal is part of
    the model: the decoder converts a literal as soon as it has scanned
    it, and [int()] raises a [ValueError] beyond 4300 digits.  The
    recursion limit is not: it depends on the state of the interpreter,
    and on text nested deeper than it allows the library raises a
    [RecursionError] where the model goes on.  No statement below rests
    on the exception of a text the library refuses for its depth. *)

Module Json.

Inductive json : Type :=
| JNull
| JBool (b : bool)
| JInt (z : Z)
| JFloat (lit : pystr)
| JStr (s : pystr)
| JArr (items : list json)
| JObj (members : list (pystr * json)).

(** A [dict] keeps insertion order; assigning to a key that is present
    replaces the value in place. *)
Fixpoint dict_set (d : list (pystr * json)) (k : pystr) (v : json)
  : list (pystr * json) :=
  match d with
  | [] => [(k, v)]
  | (k', v') :: d' =>
    if Py.eqb k' k then (k', v) :: d' else (k', v') :: dict_set d' k v
  end.

Fixpoint dict_get (d : list (pystr * json)) (k : pystr) : option json :=
  match d with
  | [] => None
  | (k', v') :: d' => if Py.eqb k' k then Some v' else dict_get d' k
  end.

(** [dict(pairs)] *)
Definition dict_of_pairs (pairs : list (pystr * json)) : list (pystr * json) :=
  fold_left (fun d kv => dict_set d (fst kv) (snd kv)) pairs [].

(** What a scanning function gives back: a value and the unread rest of
    the text, a syntax error, or an [int] literal with more digits than
    [int()] converts.  [OutOfFuel] is the model's own; it is shown below
    never to come out of [json_loads]. *)
Inductive parsed (A : Type) : Type :=
| Parsed (a : A) (rest : pystr)
| Invalid
| OutOfFuel
| DigitLimit.
Arguments Invalid {A}.
Arguments OutOfFuel {A}.
Arguments DigitLimit {A}.

Definition pmap {A B} (f : A -> B) (p : parsed A) : parsed B :=
  match p with
  | Parsed a rest => Parsed (f a) rest
  | Invalid => Invalid
  | OutOfFuel => OutOfFuel
  | DigitLimit => DigitLimit
  end.

Definition is_ws (c : N) : bool :=
  ((c =? 32) || (c =? 9) || (c =? 10) || (c =? 13))%N.

(** [WHITESPACE.match(s, idx).end()] *)
Fixpoint skip_ws (s : pystr) : pystr :=
  match s with
  | c :: s' => if is_ws c then skip_ws s' else s
  | [] => []
  end.

Definition is_digit (c : N) : bool := ((48 <=? c) && (c <=? 57))%N.

Definition hexval (c : N) : option N :=
  if is_digit c then Some (c - 48)%N
  else if ((97 <=? c) && (c <=? 102))%N then Some (c - 87)%N
  else if ((65 <=? c) && (c <=? 70))%N then Some (c - 55)%N
  else None.

Definition hex4 (a b c d : N) : option N :=
  match hexval a, hexval b, hexval c, hexval d with
  | Some a, Some b, Some c, Some d => Some (((a * 16 + b) * 16 + c) * 16 + d)%N
  | _, _, _, _ => None
  end.

(** The table [BACKSLASH] of the decoder. *)
Definition simple_escape (c : N) : option N :=
  if (c =? 34)%N then Some 34%N        (* the quote *)
  else if (c =? 92)%N then Some 92%N   (* the backslash *)
  else if (c =? 47)%N then Some 47%N   (* the slash *)
  else if (c =? 98)%N then Some 8%N    (* \b *)
  else if (c =? 102)%N then Some 12%N  (* \f *)
  else if (c =? 110)%N then Some 10%N  (* \n *)
  else if (c =? 114)%N then Some 13%N  (* \r *)
  else if (c =? 116)%N then Some 9%N   (* \t *)
  else None.

Definition is_high_surrogate (c : N) : bool := ((55296 <=? c) && (c <=? 56319))%N.
Definition is_low_surrogate (c : N) : bool := ((56320 <=? c) && (c <=? 57343))%N.

Definition join_surrogates (hi lo : N) : N :=
  (65536 + N.lor (N.shiftl (hi - 55296) 10) (lo - 56320))%N.

Definition pcons (c : N) (p : parsed pystr) : parsed pystr :=
  pmap (cons c) p.

(** [scanstring(s, end)], called just after the opening quote. *)
Fixpoint scanstring (s : pystr) : parsed pystr :=
  match s with
  | [] => Invalid                              (* unterminated string *)
  | c :: rest =>
    if (c =? 34)%N then Parsed [] rest
    else if (c =? 92)%N then
      match rest with
      | [] => Invalid
      | e :: rest1 =>
        if (e =? 117)%N then                   (* \uXXXX *)
          match rest1 with
          | h1 :: h2 :: h3 :: h4 :: rest2 =>
            match hex4 h1 h2 h3 h4 with
            | None => Invalid
            | Some uni =>
              match rest2 with
              | b :: u :: rest3 =>
                if is_high_surrogate uni && (b =? 92)%N && (u =? 117)%N then
                  match rest3 with
                  | g1 :: g2 :: g3 :: g4 :: rest4 =>
                    match hex4 g1 g2 g3 g4 with
                    | None => Invalid
                    | Some uni2 =>
                      if is_low_surrogate uni2
                      then pcons (join_surrogates uni uni2) (scanstring rest4)
                      else pcons uni (scanstring rest2)
                    end
                  | _ => Invalid
                  end
                else pcons uni (scanstring rest2)
              | _ => pcons uni (scanstring rest2)
              end
            end
          | _ => Invalid
          end
        else
          match simple_escape e with
          | Some c' => pcons c' (scanstring rest1)
          | None => Invalid
          end
      end
    else if (c <? 32)%N then Invalid           (* control character, strict mode *)
    else pcons c (scanstring rest)
  end.

(** The longest run of ASCII digits at the head of [s], and what follows. *)
Fixpoint span_digits (s : pystr) : pystr * pystr :=
  match s with
  | c :: s' =>
    if is_digit c then let (ds, r) := span_digits s' in (c :: ds, r)
    else ([], s)
  | [] => ([], [])
  end.

(** [sys.int_info.default_max_str_digits]: the most digits of a decimal
    literal that [int()] converts. *)
Definition max_str_digits : N := 4300.

(** [int(digits)] *)
Definition int_of_digits (ds : pystr) : Z :=
  fold_left (fun acc d => (acc * 10 + Z.of_N (d - 48))%Z) ds 0%Z.

(** [NUMBER_RE.match]: an optional minus sign and either 0 or a digit
    run that starts with 1-9; then, each optional, a fraction (a dot and
    one or more digits) and an exponent (e or E, an optional sign, one or
    more digits).  A fraction or exponent makes the value a [float];
    without them the digits go to [int()], which refuses more than
    [max_str_digits] of them.  [Invalid] stands for no match. *)
Definition match_number (s : pystr) : parsed json :=
  let (neg, s1) := match s with
                   | c :: s' => if (c =? 45)%N then (true, s') else (false, s)
                   | [] => (false, s)
                   end in
  let integer :=
    match s1 with
    | d :: s2 =>
      if (d =? 48)%N then Some ([d], s2)
      else if is_digit d then let (ds, r) := span_digits s2 in Some (d :: ds, r)
      else None
    | [] => None
    end in
  match integer with
  | None => Invalid
  | Some (ds, r) =>
    let (frac, r1) :=
      match r with
      | dot :: r' =>
        if (dot =? 46)%N then
          match span_digits r' with
          | ([], _) => ([], r)
          | (fs, r'') => (dot :: fs, r'')
          end
        else ([], r)
      | [] => ([], r)
      end in
    let (exp, r2) :=
      match r1 with
      | e :: r' =>
        if ((e =? 101) || (e =? 69))%N then
          let (sign, r'') :=
            match r' with
            | sg :: t => if ((sg =? 43) || (sg =? 45))%N then ([sg], t) else ([], r')
            | [] => ([], r')
            end in
          match span_digits r'' with
          | ([], _) => ([], r1)
          | (es, r''') => (e :: sign ++ es, r''')
          end
        else ([], r1)
      | [] => ([], r1)
      end in
    let sign := if neg then [45%N] else [] in
    match frac, exp with
    | [], [] =>
      if (max_str_digits <? N.of_nat (List.length ds))%N then DigitLimit
      else Parsed (JInt (if neg then - int_of_digits ds else int_of_digits ds)%Z) r2
    | _, _ => Parsed (JFloat (sign ++ ds ++ frac ++ exp)) r2
    end
  end.

(** The constants of the scanner, tried in its order. *)
Definition scan_constant (s : pystr) : parsed json :=
  if startswith s (str "null") then Parsed JNull (skipn 4 s)
  else if startswith s (str "true") then Parsed (JBool true) (skipn 4 s)
  else if startswith s (str "false") then Parsed (JBool false) (skipn 5 s)
  else match match_number s with
       | Invalid =>
         if startswith s (str "NaN") then Parsed (JFloat (str "NaN")) (skipn 3 s)
         else if startswith s (str "Infinity")
         then Parsed (JFloat (str "Infinity")) (skipn 8 s)
         else if startswith s (str "-Infinity")
         then Parsed (JFloat (str "-Infinity")) (skipn 9 s)
         else Invalid
       | number => number
       end.

(** [scan_once], [JSONArray] and [JSONObject].  [array_items] starts at
    the first character of an element, [object_items] just after the
    opening quote of a key. *)
Fixpoint scan_once (fuel : nat) (s : pystr) {struct fuel} : parsed json :=
  match fuel with
  | O => OutOfFuel
  | S fuel' =>
    match s with
    | [] => Invalid
    | c :: rest =>
      if (c =? 34)%N then pmap JStr (scanstring rest)
      else if (c =? 123)%N then
        match skip_ws rest with
        | c1 :: r1 =>
          if (c1 =? 125)%N then Parsed (JObj []) r1
          else if (c1 =? 34)%N
          then pmap (fun ps => JObj (dict_of_pairs ps)) (object_items fuel' r1)
          else Invalid
        | [] => Invalid
        end
      else if (c =? 91)%N then
        match skip_ws rest with
        | c1 :: r1 =>
          if (c1 =? 93)%N then Parsed (JArr []) r1
          else pmap JArr (array_items fuel' (c1 :: r1))
        | [] => Invalid
        end
      else scan_constant s
    end
  end

with array_items (fuel : nat) (s : pystr) {struct fuel} : parsed (list json) :=
  match fuel with
  | O => OutOfFuel
  | S fuel' =>
    match scan_once fuel' s with
    | Parsed v r =>
      match skip_ws r with
      | c :: r1 =>
        if (c =? 93)%N then Parsed [v] r1
        else if (c =? 44)%N then pmap (cons v) (array_items fuel' (skip_ws r1))
        else Invalid
      | [] => Invalid
      end
    | Invalid => Invalid
    | OutOfFuel => OutOfFuel
    | DigitLimit => DigitLimit
    end
  end

with object_items (fuel : nat) (s : pystr) {struct fuel}
  : parsed (list (pystr * json)) :=
  match fuel with
  | O => OutOfFuel
  | S fuel' =>
    match scanstring s with
    | Parsed key r =>
      match skip_ws r with
      | colon :: r1 =>
        if (colon =? 58)%N then
          match scan_once fuel' (skip_ws r1) with
          | Parsed v r2 =>
            match skip_ws r2 with
            | c :: r3 =>
              if (c =? 125)%N then Parsed [(key, v)] r3
              else if (c =? 44)%N then
                match skip_ws r3 with
                | q :: r4 =>
                  if (q =? 34)%N
                  then pmap (cons (key, v)) (object_items fuel' r4)
                  else Invalid
                | [] => Invalid
                end
              else Invalid
            | [] => Invalid
            end
          | Invalid => Invalid
          | OutOfFuel => OutOfFuel
          | DigitLimit => DigitLimit
          end
        else Invalid
      | [] => Invalid
      end
    | Invalid => Invalid
    | OutOfFuel => OutOfFuel
    | DigitLimit => DigitLimit
    end
  end.

(** Enough fuel for a text: every call reads at least one character
    every second level of the recursion. *)
Definition fuel_for (s : pystr) : nat := 2 * List.length s + 1.

(** [json.loads(s)] for a [str]: no byte order mark, one value between
    optional whitespace, nothing after it.  A syntax error is a
    [JSONDecodeError] whose [doc] is the whole text; the [ValueError] of
    [int()] leaves the decoder as it is. *)
Definition json_loads (s : pystr) : result json :=
  if startswith s [65279%N] then Raise (JSONDecodeError s)
  else
    match scan_once (fuel_for s) (skip_ws s) with
    | Parsed v rest =>
      match skip_ws rest with
      | [] => Ok v
      | _ :: _ => Raise (JSONDecodeError s)   (* extra data *)
      end
    | Invalid => Raise (JSONDecodeError s)
    | OutOfFuel => Raise (JSONDecodeError s)
    | DigitLimit => Raise ValueError
    end.

End Json.
Export Json.

(** ** Effects

    What a run of the script does that can be observed from outside:
    the records it hands to logfire, its [print] calls, its requests to
    the three external services.  A log record is the call to
    [logfire.info] or [logfire.error]; what logfire then does with it
    (its console exporter, its export over the network) is outside the
    model.  [Stdout] is a [print] call of the script.  [Enter] marks the
    entry into one of the four pipeline steps, so that their order can
    be read off a trace. *)

Inductive level : Type := Info | Error.

(** The four steps of [process_document]. *)
Inductive step : Type :=
| OcrSubmission        (* GoogleVisionClient.async_detect_document *)
| TextCombination      (* TextExtractor.get_combined_extract_text *)
| CompletionRequest    (* PortkeyClient.send_to_portkey *)
| ResponseParsing.     (* DocumentProcessor.parse_and_validate_response *)

Inductive request : Type :=
| Annotate (source destination : option pystr) (mime_type : pystr) (batch_size : Z)
| WaitOperation (timeout : Z)
| ListBlobs (bucket_name prefix : pystr)
| Download (blob_name : pystr)
| Completions (prompt_id : option pystr) (text : pystr).

(** An argument of [print]. [json.dumps(result, indent=4)] is kept as
    the value it renders. *)
Inductive output : Type :=
| Line (s : pystr)
| JsonDumps (j : json) (indent : nat).

Inductive event : Type :=
| Log (lvl : level) (msg : pystr) (e : option exn)   (* logfire.info / logfire.error, with the [{e}] of the f-string *)
| Stdout (o : output)                                 (* print(...) *)
| Enter (s : step)
| Request (r : request).

Definition trace := list event.

(** A computation: the events it emitted, and its value or the
    exception that ended it. *)
Definition M (A : Type) : Type := trace * result A.

Definition ret {A} (a : A) : M A := ([], Ok a).

Definition bind {A B} (m : M A) (k : A -> M B) : M B :=
  match m with
  | (t, Ok a) => let (t', r) := k a in (t ++ t', r)
  | (t, Raise e) => (t, Raise e)
  end.

Definition lift {A} (r : result A) : M A := ([], r).

Definition raise {A} (e : exn) : M A := ([], Raise e).

Definition emit (ev : event) : M unit := ([ev], Ok tt).

Definition info (msg : string) : M unit := emit (Log Info (str msg) None).

Definition error (msg : string) (e : exn) : M unit :=
  emit (Log Error (str msg) (Some e)).

(** A call that leaves the process: the request is observable, the
    answer is the world's. *)
Definition call {A} (r : request) (answer : result A) : M A :=
  ([Request r], answer).

(** [try: body / except <class> as e: handler e] *)
Definition try_except {A} (body : M A) (catches : exn -> bool)
           (handler : exn -> M A) : M A :=
  match body with
  | (t, Raise e) =>
    if catches e then let (t', r) := handler e in (t ++ t', r)
    else (t, Raise e)
  | (t, Ok a) => (t, Ok a)
  end.

(** Every modelled exception is an [Exception]. *)
Definition is_Exception (e : exn) : bool := true.

Notation "x <- m ;; k" := (bind m (fun x => k))
  (at level 61, m at next level, right associativity).
Notation "m ;; k" := (bind m (fun _ => k))
  (at level 61, right associativity).

(** ** The external world *)

(** [storage.Blob]: a name and a fetch that may fail. *)
Record Blob : Type := {
  name : pystr;
  download_as_bytes : result pybytes
}.

(** The completion object the gateway returns; only
    [choices[0].message.content] is read. *)
Record Message : Type := { content : option pystr }.
Record Choice : Type := { message : Message }.
Record Completion : Type := { choices : list Choice }.

(** The environment and the answers of the services during one run.
    Each function is consulted where the script makes the call. *)
Record World : Type := {
  getenv : pystr -> option pystr;                       (* os.getenv *)
  ImageAnnotatorClient : result unit;                   (* vision.ImageAnnotatorClient() *)
  Portkey : option pystr -> pystr -> result unit;       (* Portkey(api_key=, base_url=) *)
  async_batch_annotate_files :
    option pystr -> option pystr -> pystr -> Z -> result unit;
  operation_result : Z -> result unit;                  (* operation.result(timeout=) *)
  storage_Client : result unit;                         (* storage.Client() *)
  list_blobs : pystr -> pystr -> result (list Blob);    (* get_bucket(..).list_blobs(prefix=) *)
  completions_create : option pystr -> pystr -> result Completion
}.

(** ** Operations of the Python data model used by the script *)

(** [obj[key]] with a [str] key: only a [dict] can be indexed so. *)
Definition getitem (obj : json) (key : pystr) : result json :=
  match obj with
  | JObj d =>
    match dict_get d key with
    | Some v => Ok v
    | None => Raise (KeyError key)
    end
  | _ => Raise TypeError
  end.

(** The items a [for] loop draws from a value: the elements of a list,
    the keys of a dict, the characters of a string. *)
Definition iter (obj : json) : result (list json) :=
  match obj with
  | JArr items => Ok items
  | JObj d => Ok (List.map (fun kv => JStr (fst kv)) d)
  | JStr s => Ok (List.map (fun c => JStr [c]) s)
  | _ => Raise TypeError
  end.

(** [value + "\n"]: defined for a [str] only. *)
Definition add_str (value : json) (s : pystr) : result pystr :=
  match value with
  | JStr t => Ok (t ++ s)
  | _ => Raise TypeError
  end.

(** [re.match(r"gs://([^/]+)/(.+)", uri)]: groups 1 and 2.  The bucket is
    the longest run without a slash, the prefix runs to the first line
    break. *)
Fixpoint span_until (stop : N) (s : pystr) : pystr * pystr :=
  match s with
  | c :: s' =>
    if (c =? stop)%N then ([], s)
    else let (a, b) := span_until stop s' in (c :: a, b)
  | [] => ([], [])
  end.

Definition match_gs_uri (uri : pystr) : option (pystr * pystr) :=
  if startswith uri (str "gs://") then
    match span_until 47 (skipn 5 uri) with
    | ((_ :: _) as bucket, _ :: tail) =>
      match fst (span_until 10 tail) with
      | [] => None
      | prefix => Some (bucket, prefix)
      end
    | _ => None
    end
  else None.

(** ** [class GoogleVisionClient] *)

Module GoogleVisionClient.

Definition __init__ (w : World) : M unit := lift (ImageAnnotatorClient w).

Definition async_detect_document (w : World)
           (gcs_source_uri gcs_destination_uri : option pystr)
           (mime_type : pystr) (batch_size : Z) : M (list Blob) :=
  emit (Enter OcrSubmission) ;;
  call (Annotate gcs_source_uri gcs_destination_uri mime_type batch_size)
       (async_batch_annotate_files w gcs_source_uri gcs_destination_uri
                                   mime_type batch_size) ;;
  info "Waiting for the operation to finish." ;;
  call (WaitOperation 420) (operation_result w 420) ;;
  (* List output files in GCS *)
  lift (storage_Client w) ;;
  groups <- lift (match gcs_destination_uri with
                  | None => Raise TypeError
                  | Some uri =>
                    match match_gs_uri uri with
                    | None => Raise AttributeError
                    | Some g => Ok g
                    end
                  end) ;;
  let bucket_name := fst groups in
  let prefix := snd groups in
  blobs <- call (ListBlobs bucket_name prefix) (list_blobs w bucket_name prefix) ;;
  let blob_list :=
    filter (fun blob => negb (endswith (name blob) (str "/"))) blobs in
  ret blob_list.

End GoogleVisionClient.

(** ** [class TextExtractor] *)

Module TextExtractor.

(** The inner loop: [for page_response in response["responses"]]. *)
Fixpoint pages_loop (pages : list json) (combined_text : pystr) : result pystr :=
  match pages with
  | [] => Ok combined_text
  | page_response :: pages' =>
    (* Extract the full text annotation *)
    annotation <-- getitem page_response (str "fullTextAnnotation") ;;
    (* Append the text to the combined_text string *)
    text <-- getitem annotation (str "text") ;;
    line <-- add_str text nl ;;
    pages_loop pages' (combined_text ++ line)
  end.

(** The body of the outer loop for one blob. *)
Definition blob_body (blob : Blob) (combined_text : pystr) : M pystr :=
  data <- call (Download (name blob)) (download_as_bytes blob) ;;
  json_string <- lift (decode_utf8 data) ;;
  try_except
    (lift (response <-- json_loads json_string ;;
           responses <-- getitem response (str "responses") ;;
           pages <-- iter responses ;;
           pages_loop pages combined_text))
    is_ValidationError
    (fun e => error "Validation error in JSON response: " e ;; raise e).

(** The outer loop: [for blob in blob_list]. *)
Fixpoint blobs_loop (blob_list : list Blob) (combined_text : pystr) : M pystr :=
  match blob_list with
  | [] => ret combined_text
  | blob :: blob_list' =>
    combined_text' <- blob_body blob combined_text ;;
    blobs_loop blob_list' combined_text'
  end.

Definition get_combined_extract_text (blob_list : list Blob) : M pystr :=
  emit (Enter TextCombination) ;;
  combined_text <- blobs_loop blob_list [] ;;
  info "Combined text extracted successfully." ;;
  ret combined_text.

End TextExtractor.

(** ** [class PortkeyClient] *)

Module PortkeyClient.

Definition __init__ (w : World) (api_key : option pystr) : M unit :=
  lift (Portkey w api_key (str "https://api.portkey.ai/v1")).

Definition send_to_portkey (w : World) (prompt_id : option pystr)
           (text : pystr) : M Completion :=
  emit (Enter CompletionRequest) ;;
  info "Sending request to Portkey with payload." ;;
  try_except
    (response <- call (Completions prompt_id text)
                      (completions_create w prompt_id text) ;;
     info "Portkey response received." ;;
     ret response)
    is_Exception
    (fun e => error "Error sending request to Portkey: " e ;; raise e).

End PortkeyClient.

(** ** [class DocumentProcessor] *)

Module DocumentProcessor.

(** [response.choices[0].message.content] and, on it, the attribute
    lookup [content.startswith]: [None] has no such attribute. *)
Definition first_content (response : Completion) : result pystr :=
  match choices response with
  | [] => Raise IndexError
  | c :: _ =>
    match content (message c) with
    | Some text => Ok text
    | None => Raise AttributeError
    end
  end.

(** Remove the Markdown code block. *)
Definition unfence (content : pystr) : pystr :=
  if startswith content (str "```json") && endswith content (str "```")
  then strip (slice 7 (-3) content)
  else content.

Definition parse_and_validate_response (response : Completion) : M json :=
  emit (Enter ResponseParsing) ;;
  content <- lift (first_content response) ;;
  let content := unfence content in
  try_except
    (extracted_json <- lift (json_loads content) ;;
     info "Extracted JSON validated successfully." ;;
     ret extracted_json)
    is_ValidationError
    (fun e => error "Validation error in extracted JSON: " e ;; raise e).

Definition process_document (w : World)
           (gcs_source_uri gcs_destination_uri prompt_id : option pystr)
  : M json :=
  (* Step 1: Extract text using Google Vision *)
  blob_list <- GoogleVisionClient.async_detect_document
                 w gcs_source_uri gcs_destination_uri
                 (str "application/pdf") 2 ;;
  combined_text <- TextExtractor.get_combined_extract_text blob_list ;;
  (* Step 2: Send text to Portkey *)
  response <- PortkeyClient.send_to_portkey w prompt_id combined_text ;;
  (* Step 3: Parse and validate the response *)
  extracted_json <- parse_and_validate_response response ;;
  ret extracted_json.

End DocumentProcessor.

(** ** [class ClientFactory] *)

Module ClientFactory.

Definition create_vision_client (w : World) : M unit :=
  GoogleVisionClient.__init__ w.

Definition create_text_extractor : M unit := ret tt.

Definition create_portkey_client (w : World) (api_key : option pystr) : M unit :=
  PortkeyClient.__init__ w api_key.

End ClientFactory.

(** ** [main] *)

Definition main (w : World) : M unit :=
  let gcs_destination_uri := getenv w (str "OUTPUT_DOCUMENT_PATH") in
  let gcs_source_uri := getenv w (str "INPUT_DOCUMENT_PATH") in
  let portkey_prompt_id := getenv w (str "PORTKEY_PROMPT_ID") in
  let portkey_api_key := getenv w (str "PORTKEY_API_KEY") in
  (* Initialize clients *)
  info "Initialize Vision Client." ;;
  ClientFactory.create_vision_client w ;;
  info "Initialize Text Extractor" ;;
  ClientFactory.create_text_extractor ;;
  info "Initialized PortKey Client." ;;
  ClientFactory.create_portkey_client w portkey_api_key ;;
  (* Process document *)
  try_except
    (info "Document processing Started." ;;
     result <- DocumentProcessor.process_document
                 w gcs_source_uri gcs_destination_uri portkey_prompt_id ;;
     info "Document processing completed successfully." ;;
     emit (Stdout (Line (str "Extracted JSON Output:"))) ;;
     emit (Stdout (JsonDumps result 4)))
    is_Exception
    (fun e => error "Document processing failed: " e).

(** The exit status of the interpreter after [main()]: 0 when [main]
    returns, 1 when an exception leaves it. *)
Definition exit_status (m : M unit) : Z :=
  match snd m with
  | Ok _ => 0
  | Raise _ => 1
  end.

(** ** The specification's vocabulary

    The terms in which the specification speaks of blobs and traces,
    defined on their own and not through the code above. *)

Module Spec.

(** Member [key] of a JSON object. *)
Definition field (key : string) (j : json) : option json :=
  match j with
  | JObj d => dict_get d (str key)
  | _ => None
  end.

(** The [responses] list of a blob: its payload fetched, decoded as
    UTF-8 and parsed as JSON. *)
Definition responses (b : Blob) : option (list json) :=
  match download_as_bytes b with
  | Ok data =>
    match decode_utf8 data with
    | Ok text =>
      match json_loads text with
      | Ok payload =>
        match field "responses" payload with
        | Some (JArr pages) => Some pages
        | _ => None
        end
      | Raise _ => None
      end
    | Raise _ => None
    end
  | Raise _ => None
  end.

(** The [fullTextAnnotation.text] of a page, a string. *)
Definition page_text (page : json) : option pystr :=
  match field "fullTextAnnotation" page with
  | Some annotation =>
    match field "text" annotation with
    | Some (JStr t) => Some t
    | _ => None
    end
  | None => None
  end.

Fixpoint traverse {A B} (f : A -> option B) (l : list A) : option (list B) :=
  match l with
  | [] => Some []
  | a :: l' =>
    match f a, traverse f l' with
    | Some b, Some bs => Some (b :: bs)
    | _, _ => None
    end
  end.

(** The texts of the pages of a well-formed blob, in page order. *)
Definition page_texts (b : Blob) : option (list pystr) :=
  match responses b with
  | Some pages => traverse page_text pages
  | None => None
  end.

(** A well-formed blob: valid UTF-8, valid JSON, a [responses] list,
    every page with its text. *)
Definition well_formed (b : Blob) : bool :=
  match page_texts b with
  | Some _ => true
  | None => false
  end.

(** Combined Text: every page's text followed by a newline, in blob
    order and then page order. *)
Definition combined_text (blob_list : list Blob) : pystr :=
  flat_map (fun t => t ++ nl)
           (flat_map (fun b => match page_texts b with
                               | Some ts => ts
                               | None => []
                               end) blob_list).

(** The three ways a fetched payload can be unfit for extraction. *)
Inductive defect : Type :=
| NotUtf8
| MalformedJson
| PageWithoutAnnotation.

Definition has_annotation (page : json) : bool :=
  match field "fullTextAnnotation" page with
  | Some _ => true
  | None => false
  end.

Definition defect_of (b : Blob) : option defect :=
  match download_as_bytes b with
  | Ok data =>
    match decode_utf8 data with
    | Raise _ => Some NotUtf8
    | Ok text =>
      match json_loads text with
      | Raise _ => Some MalformedJson
      | Ok payload =>
        match field "responses" payload with
        | Some (JArr pages) =>
          if forallb has_annotation pages then None
          else Some PageWithoutAnnotation
        | _ => None
        end
      end
    end
  | Raise _ => None
  end.

(** The steps a trace went through, in order of entry. *)
Fixpoint steps_of (t : trace) : list step :=
  match t with
  | [] => []
  | Enter s :: t' => s :: steps_of t'
  | _ :: t' => steps_of t'
  end.

Definition is_print (ev : event) : bool :=
  match ev with Stdout _ => true | _ => false end.

Definition is_error_log (ev : event) : bool :=
  match ev with Log Error _ _ => true | _ => false end.

Definition is_enter (ev : event) : bool :=
  match ev with Enter _ => true | _ => false end.

(** The script wrote nothing to standard output: no [print] call. *)
Definition no_output (t : trace) : bool := forallb (fun ev => negb (is_print ev)) t.

(** The four required settings. *)
Definition required_settings : list string :=
  ["INPUT_DOCUMENT_PATH"; "OUTPUT_DOCUMENT_PATH";
   "PORTKEY_PROMPT_ID"; "PORTKEY_API_KEY"]%string.

Definition setting_missing (w : World) : bool :=
  existsb (fun k => match getenv w (str k) with Some _ => false | None => true end)
          required_settings.

(** No pipeline step was entered. *)
Definition pipeline_not_started (t : trace) : bool :=
  forallb (fun ev => negb (is_enter ev)) t.

(** An error was reported before the first pipeline step, if any. *)
Fixpoint error_before_pipeline (t : trace) : bool :=
  match t with
  | [] => false
  | ev :: t' =>
    if is_error_log ev then true
    else if is_enter ev then false
    else error_before_pipeline t'
  end.

(** The pipeline of one run: [process_document] on the settings read
    from the environment, as [main] calls it. *)
Definition pipeline (w : World) : M json :=
  DocumentProcessor.process_document
    w (getenv w (str "INPUT_DOCUMENT_PATH"))
    (getenv w (str "OUTPUT_DOCUMENT_PATH"))
    (getenv w (str "PORTKEY_PROMPT_ID")).

(** Both clients could be constructed, so that [main] reaches the
    pipeline. *)
Definition clients_constructed (w : World) : Prop :=
  ImageAnnotatorClient w = Ok tt
  /\ Portkey w (getenv w (str "PORTKEY_API_KEY")) (str "https://api.portkey.ai/v1")
     = Ok tt.

(** The log records of [main] before the pipeline. *)
Definition main_preamble : trace :=
  [Log Info (str "Initialize Vision Client.") None;
   Log Info (str "Initialize Text Extractor") None;
   Log Info (str "Initialized PortKey Client.") None;
   Log Info (str "Document processing Started.") None].

End Spec.

(** ** Fixtures *)

Module Fixtures.

(** A text literal in which the apostrophe stands for the double quote. *)
Definition lit (s : string) : pystr :=
  List.map (fun c => if (c =? 39)%N then 34%N else c) (str s).

Definition lit_bytes (s : string) : pybytes :=
  List.map (fun b => if Byte.eqb b x27 then x22 else b) (bytes s).

Definition blob (blob_name : string) (payload : pybytes) : Blob :=
  {| name := str blob_name; download_as_bytes := Ok payload |}.

Definition blob_page1 : Blob :=
  blob "out/output-1-to-1.json"
       (lit_bytes "{'responses':[{'fullTextAnnotation':{'text':'Page1'}}]}").

Definition blob_page2 : Blob :=
  blob "out/output-2-to-2.json"
       (lit_bytes "{'responses':[{'fullTextAnnotation':{'text':'Page2'}}]}").

Definition blob_no_pages : Blob :=
  blob "out/output-3-to-3.json" (lit_bytes "{'responses':[]}").

(** A blank page: no [fullTextAnnotation]. *)
Definition blob_blank_page : Blob :=
  blob "out/output-4-to-4.json" (lit_bytes "{'responses':[{}]}").

Definition blob_truncated : Blob :=
  blob "out/output-5-to-5.json" (lit_bytes "{'responses':[").

Definition blob_not_utf8 : Blob :=
  blob "out/output-6-to-6.json" [xff; xfe].

Definition completion (text : pystr) : Completion :=
  {| choices := [ {| message := {| content := Some text |} |} ] |}.

Definition open_fence : pystr := str "```json".
Definition close_fence : pystr := str "```".

(** ["```json\n{\"a\":1}\n```"] *)
Definition fenced_a1 : pystr :=
  open_fence ++ nl ++ lit "{'a':1}" ++ nl ++ close_fence.

(** ["{\"a\":1}"] *)
Definition unfenced_a1 : pystr := lit "{'a':1}".

(** ["```json\n{\"a\":1}"]: an open fence and no close fence. *)
Definition open_only_a1 : pystr := open_fence ++ nl ++ lit "{'a':1}".

(** ["```json\n  {\"a\":1}  \n```"] *)
Definition fenced_padded_a1 : pystr :=
  open_fence ++ nl ++ str "  " ++ lit "{'a':1}" ++ str "  " ++ nl ++ close_fence.

(** The value [{"a": 1}]. *)
Definition a1 : json := JObj [(str "a", JInt 1)].

Definition environ (settings : list (string * string)) (key : pystr)
  : option pystr :=
  match find (fun kv => Py.eqb (str (fst kv)) key) settings with
  | Some kv => Some (str (snd kv))
  | None => None
  end.

Definition full_environment : list (string * string) :=
  [("INPUT_DOCUMENT_PATH", "gs://docs/in/scan.pdf");
   ("OUTPUT_DOCUMENT_PATH", "gs://docs/out/");
   ("PORTKEY_PROMPT_ID", "pp-extract-1");
   ("PORTKEY_API_KEY", "key")]%string.

(** Everything works: two pages of OCR output, a fenced JSON answer. *)
Definition world_ok : World :=
  {| getenv := environ full_environment;
     ImageAnnotatorClient := Ok tt;
     Portkey := fun _ _ => Ok tt;
     async_batch_annotate_files := fun _ _ _ _ => Ok tt;
     operation_result := fun _ => Ok tt;
     storage_Client := Ok tt;
     list_blobs := fun _ _ => Ok [blob_page1; blob_page2];
     completions_create := fun _ _ => Ok (completion fenced_a1) |}.

(** The OCR job does not finish within the timeout. *)
Definition world_timeout : World :=
  {| getenv := environ full_environment;
     ImageAnnotatorClient := Ok tt;
     Portkey := fun _ _ => Ok tt;
     async_batch_annotate_files := fun _ _ _ _ => Ok tt;
     operation_result := fun _ => Raise TimeoutError;
     storage_Client := Ok tt;
     list_blobs := fun _ _ => Ok [blob_page1; blob_page2];
     completions_create := fun _ _ => Ok (completion fenced_a1) |}.

(** The gateway answers with text that is not JSON. *)
Definition world_not_json : World :=
  {| getenv := environ full_environment;
     ImageAnnotatorClient := Ok tt;
     Portkey := fun _ _ => Ok tt;
     async_batch_annotate_files := fun _ _ _ _ => Ok tt;
     operation_result := fun _ => Ok tt;
     storage_Client := Ok tt;
     list_blobs := fun _ _ => Ok [blob_page1; blob_page2];
     completions_create := fun _ _ => Ok (completion (str "not json")) |}.

(** The second of three output blobs is cut short. *)
Definition world_truncated : World :=
  {| getenv := environ full_environment;
     ImageAnnotatorClient := Ok tt;
     Portkey := fun _ _ => Ok tt;
     async_batch_annotate_files := fun _ _ _ _ => Ok tt;
     operation_result := fun _ => Ok tt;
     storage_Client := Ok tt;
     list_blobs := fun _ _ => Ok [blob_page1; blob_truncated; blob_page2];
     completions_create := fun _ _ => Ok (completion fenced_a1) |}.

(** [INPUT_DOCUMENT_PATH] is not set; the OCR service refuses a request
    without a source. *)
Definition world_no_input : World :=
  {| getenv := environ (tl full_environment);
     ImageAnnotatorClient := Ok tt;
     Portkey := fun _ _ => Ok tt;
     async_batch_annotate_files :=
       fun source _ _ _ =>
         match source with
         | Some _ => Ok tt
         | None => Raise (ServiceError (str "400 no input uri"))
         end;
     operation_result := fun _ => Ok tt;
     storage_Client := Ok tt;
     list_blobs := fun _ _ => Ok [blob_page1; blob_page2];
     completions_create := fun _ _ => Ok (completion fenced_a1) |}.

End Fixtures.

(** ** Reading a trace *)

Module Observe.

(** The requests that left the process, in order. *)
Fixpoint requests_of (t : trace) : list request :=
  match t with
  | [] => []
  | Request r :: t' => r :: requests_of t'
  | _ :: t' => requests_of t'
  end.

(** The arguments of the [print] calls of the script, in order.  What
    logfire writes to the console for a log record is not among them. *)
Fixpoint printed (t : trace) : list output :=
  match t with
  | [] => []
  | Stdout o :: t' => o :: printed t'
  | _ :: t' => printed t'
  end.

(** The records logged with [logfire.error]: message and exception. *)
Fixpoint error_logs (t : trace) : list (pystr * option exn) :=
  match t with
  | [] => []
  | Log Error msg e :: t' => (msg, e) :: error_logs t'
  | _ :: t' => error_logs t'
  end.

(** The fetch of a blob, as a request. *)
Definition download_of (b : Blob) : request := Download (name b).

(** A directory marker: a name with a trailing path separator. *)
Definition is_directory_marker (blob_name : pystr) : bool :=
  endswith blob_name (str "/").

(** A request that fetches a directory marker. *)
Definition fetches_directory_marker (r : request) : bool :=
  match r with
  | Download blob_name => is_directory_marker blob_name
  | _ => false
  end.

Definition is_completions (r : request) : bool :=
  match r with
  | Completions _ _ => true
  | _ => false
  end.

(** The two messages the [except ValidationError] clauses would log. *)
Definition is_validation_log (ev : event) : bool :=
  match ev with
  | Log _ msg _ =>
    Py.eqb msg (str "Validation error in JSON response: ")
    || Py.eqb msg (str "Validation error in extracted JSON: ")
  | _ => false
  end.

(** The exception a destination that is no [gs://bucket/prefix] URI
    ends [async_detect_document] with: [re.match] refuses [None], and
    [None.group] does not exist. *)
Definition destination_error (destination : option pystr) : exn :=
  match destination with
  | None => TypeError
  | Some _ => AttributeError
  end.

Definition bad_destination (destination : option pystr) : bool :=
  match destination with
  | None => true
  | Some uri =>
    match match_gs_uri uri with
    | Some _ => false
    | None => true
    end
  end.

(** The JSON value of a blob's payload: fetched, decoded, parsed. *)
Definition payload (b : Blob) : option json :=
  match download_as_bytes b with
  | Ok data =>
    match decode_utf8 data with
    | Ok text =>
      match json_loads text with
      | Ok v => Some v
      | Raise _ => None
      end
    | Raise _ => None
    end
  | Raise _ => None
  end.

(** The exception of indexing a value that lacks the key: a [dict]
    answers [KeyError], anything else cannot be indexed by a string. *)
Definition missing_key_error (obj : json) (key : string) : exn :=
  match obj with
  | JObj _ => KeyError (str key)
  | _ => TypeError
  end.

(** What is wrong with a page, if anything: no annotation, no text in
    the annotation, or a text that is not a string. *)
Definition page_error (page : json) : option exn :=
  match Spec.field "fullTextAnnotation" page with
  | None => Some (missing_key_error page "fullTextAnnotation")
  | Some annotation =>
    match Spec.field "text" annotation with
    | None => Some (missing_key_error annotation "text")
    | Some (JStr _) => None
    | Some _ => Some TypeError
    end
  end.

(** The step a trace was in when it ended. *)
Definition last_step (t : trace) : option step :=
  match rev (Spec.steps_of t) with
  | [] => None
  | s :: _ => Some s
  end.

(** The error records of a run of [main] whose pipeline raised [e]:
    the record of [send_to_portkey] when the run ended in that step,
    and the record of [main]. *)
Definition failure_records (ended_in : option step) (e : exn)
  : list (pystr * option exn) :=
  match ended_in with
  | Some CompletionRequest =>
    [(str "Error sending request to Portkey: ", Some e)]
  | _ => []
  end ++ [(str "Document processing failed: ", Some e)].

End Observe.

(** ** Further scenarios *)

Module Scenarios.

Import Fixtures.

Definition world (settings : list (string * string))
           (wait : result unit) (listing : list Blob)
           (answer : result Completion) : World :=
  {| getenv := environ settings;
     ImageAnnotatorClient := Ok tt;
     Portkey := fun _ _ => Ok tt;
     async_batch_annotate_files := fun _ _ _ _ => Ok tt;
     operation_result := fun _ => wait;
     storage_Client := Ok tt;
     list_blobs := fun _ _ => Ok listing;
     completions_create := fun _ _ => answer |}.

(** The output location names a bucket and nothing under it. *)
Definition world_bucket_only : World :=
  world [("INPUT_DOCUMENT_PATH", "gs://docs/in/scan.pdf");
         ("OUTPUT_DOCUMENT_PATH", "gs://docs");
         ("PORTKEY_PROMPT_ID", "pp-extract-1");
         ("PORTKEY_API_KEY", "key")]%string
        (Ok tt) [blob_page1] (Ok (completion fenced_a1)).

(** The gateway is down. *)
Definition world_gateway_down : World :=
  world full_environment (Ok tt) [blob_page1; blob_page2]
        (Raise (ServiceError (str "503"))).

(** A directory marker among the output objects. *)
Definition blob_marker : Blob := blob "out/" [].

Definition world_with_marker : World :=
  world full_environment (Ok tt) [blob_marker; blob_page1; blob_page2]
        (Ok (completion fenced_a1)).

(** Nothing but a directory marker under the output prefix. *)
Definition world_no_output_blobs : World :=
  world full_environment (Ok tt) [blob_marker]
        (Ok (completion fenced_a1)).

(** The vision client cannot be constructed. *)
Definition world_no_credentials : World :=
  {| getenv := environ full_environment;
     ImageAnnotatorClient := Raise (ServiceError (str "no credentials"));
     Portkey := fun _ _ => Ok tt;
     async_batch_annotate_files := fun _ _ _ _ => Ok tt;
     operation_result := fun _ => Ok tt;
     storage_Client := Ok tt;
     list_blobs := fun _ _ => Ok [blob_page1];
     completions_create := fun _ _ => Ok (completion fenced_a1) |}.

(** A blob that cannot be fetched. *)
Definition blob_unreachable : Blob :=
  {| name := str "out/output-7-to-7.json";
     download_as_bytes := Raise (ServiceError (str "404")) |}.

(** A payload without [responses]. *)
Definition blob_no_responses : Blob :=
  blob "out/output-8-to-8.json" (lit_bytes "{'pages':[]}").

(** A payload whose [responses] is an empty object. *)
Definition blob_responses_empty_object : Blob :=
  blob "out/output-9-to-9.json" (lit_bytes "{'responses':{}}").

(** A payload whose [responses] is an object with a member. *)
Definition blob_responses_object : Blob :=
  blob "out/output-10-to-10.json" (lit_bytes "{'responses':{'a':1}}").

(** A page whose [text] is a number. *)
Definition blob_text_number : Blob :=
  blob "out/output-11-to-11.json"
       (lit_bytes "{'responses':[{'fullTextAnnotation':{'text':7}}]}").

(** A page whose annotation has no [text]. *)
Definition blob_no_text : Blob :=
  blob "out/output-12-to-12.json"
       (lit_bytes "{'responses':[{'fullTextAnnotation':{}}]}").

(** The code points for which [str.isspace()] holds, the ones
    [str.strip()] removes: the ASCII controls HT LF VT FF CR and FS GS RS
    US, the space, NEL, the no-break space, the Ogham space mark, the
    spaces U+2000 to U+200A, the line and paragraph separators, the
    narrow no-break space, the medium mathematical space and the
    ideographic space. *)
Definition whitespace_code_points : list N :=
  [9; 10; 11; 12; 13; 28; 29; 30; 31; 32; 133; 160; 5760;
   8192; 8193; 8194; 8195; 8196; 8197; 8198; 8199; 8200; 8201; 8202;
   8232; 8233; 8239; 8287; 12288]%N.

(** Text with no whitespace at either end. *)
Definition bare (s : pystr) : bool :=
  match s with
  | [] => true
  | c :: _ => negb (isspace c)
  end
  && match rev s with
     | [] => true
     | c :: _ => negb (isspace c)
     end.

(** [{"a":1}] between form feeds, inside the fences: whitespace for
    [strip()], none for JSON. *)
Definition fenced_form_feed_a1 : pystr :=
  open_fence ++ [12%N] ++ lit "{'a':1}" ++ [12%N] ++ close_fence.

(** ["[" + "1" * 4301 + ",]"]: a list with a comma before its closing
    bracket, hence no JSON, whose one element is an [int] literal of 4301
    digits. *)
Definition overlong_int : pystr :=
  str "[" ++ repeat 49%N (N.to_nat 4301) ++ str ",]".

End Scenarios.

(** * Lemmas and theorems *)

Unset Implicit Arguments.
Import Fixtures Spec DocumentProcessor TextExtractor.

(** ** Case analysis on the scrutinee of a match *)

Ltac break_any :=
  match goal with
  | H : context [match ?x with _ => _ end] |- _ => destruct x eqn:?
  | H : context [if ?x then _ else _] |- _ => destruct x eqn:?
  end.

Ltac break_in H :=
  match type of H with
  | context [match ?x with _ => _ end] => destruct x eqn:?
  | context [if ?x then _ else _] => destruct x eqn:?
  end.

(** ** The decoder: every scan consumes input and ends *)

Lemma pmap_Parsed A B (f : A -> B) p b r :
  pmap f p = Parsed b r -> exists a, p = Parsed a r /\ b = f a.
Proof. destruct p; simpl; intros H; inversion H; eauto. Qed.

Lemma pmap_OutOfFuel A B (f : A -> B) p :
  pmap f p = OutOfFuel -> p = OutOfFuel.
Proof. destruct p; simpl; intros H; now inversion H. Qed.

Lemma skip_ws_length s : (List.length (skip_ws s) <= List.length s)%nat.
Proof. induction s as [|c s IH]; simpl; [lia|]. destruct (is_ws c); simpl; lia. Qed.

Lemma scanstring_shrinks_aux n :
  forall s a r, (List.length s <= n)%nat -> scanstring s = Parsed a r ->
                (List.length r < List.length s)%nat.
Proof.
  induction n as [|n IH]; intros s a r Hn H.
  - destruct s; [discriminate | simpl in Hn; lia].
  - destruct s as [|c rest]; [discriminate|].
    simpl in H.
    repeat (break_in H; try discriminate);
    unfold pcons in *;
    try (apply pmap_Parsed in H; destruct H as (a' & H & _); apply IH in H; simpl in *; lia).
    all: try (inversion H; subst; simpl; lia).
Qed.

Lemma scanstring_shrinks s a r :
  scanstring s = Parsed a r -> (List.length r < List.length s)%nat.
Proof. apply scanstring_shrinks_aux with (n := List.length s); lia. Qed.

Lemma span_digits_length s ds r :
  span_digits s = (ds, r) -> (List.length r <= List.length s)%nat.
Proof.
  revert ds r; induction s as [|c s IH]; simpl; intros ds r H.
  - inversion H; simpl; lia.
  - destruct (is_digit c).
    + destruct (span_digits s) as [ds' r'] eqn:E. inversion H; subst.
      specialize (IH _ _ eq_refl). lia.
    + inversion H; subst; simpl; lia.
Qed.

Lemma match_number_shrinks s v r :
  match_number s = Parsed v r -> (List.length r < List.length s)%nat.
Proof.
  unfold match_number. intros H.
  repeat (break_any; try discriminate);
  repeat match goal with
         | E : span_digits _ = _ |- _ => apply span_digits_length in E
         | E : (_, _) = (_, _) |- _ => inversion E; subst; clear E
         | E : Some _ = Some _ |- _ => inversion E; subst; clear E
         | E : Parsed _ _ = Parsed _ _ |- _ => inversion E; subst; clear E
         end; simpl in *; lia.
Qed.

Lemma match_number_fuel s : match_number s <> OutOfFuel.
Proof.
  unfold match_number. intros H.
  repeat (break_in H; try discriminate).
Qed.

Lemma startswith_length s p :
  startswith s p = true -> (List.length p <= List.length s)%nat.
Proof.
  revert s; induction p as [|c p IH]; intros s H; simpl in *; [lia|].
  destruct s; [discriminate|]. apply andb_true_iff in H as [_ H].
  apply IH in H. simpl. lia.
Qed.

Lemma scan_constant_shrinks s v r :
  scan_constant s = Parsed v r -> (List.length r < List.length s)%nat.
Proof.
  unfold scan_constant. intros H.
  destruct (startswith s (str "null")) eqn:E1;
    [|destruct (startswith s (str "true")) eqn:E2;
      [|destruct (startswith s (str "false")) eqn:E3;
        [|destruct (match_number s) eqn:En;
          [|destruct (startswith s (str "NaN")) eqn:E4;
            [|destruct (startswith s (str "Infinity")) eqn:E5;
              [|destruct (startswith s (str "-Infinity")) eqn:E6]]| |]]]];
    try discriminate;
    try (injection H as <- <-; now apply match_number_shrinks in En);
    injection H as _ <-;
    repeat match goal with
           | E : startswith _ _ = true |- _ => apply startswith_length in E
           end;
    cbn [str List.map list_ascii_of_string List.length] in *;
    do 9 (try (destruct s as [|? s]; simpl in *; try lia)).
Qed.

Lemma scan_constant_fuel s : scan_constant s <> OutOfFuel.
Proof.
  unfold scan_constant. intros H.
  pose proof (match_number_fuel s) as Hn.
  destruct (match_number s); repeat (break_in H; try discriminate);
    congruence.
Qed.

Ltac note_skip_ws s :=
  lazymatch goal with
  | _ : (List.length (skip_ws s) <= List.length s)%nat |- _ => fail
  | _ => pose proof (skip_ws_length s)
  end.

Ltac use_skip_ws :=
  repeat match goal with
         | _ : context [skip_ws ?s] |- _ => note_skip_ws s
         end;
  repeat match goal with
         | E : skip_ws ?s = _ :: _, L : context [skip_ws ?s] |- _ =>
           lazymatch L with E => fail | _ => rewrite E in L end
         end.

#[local] Arguments scan_constant : simpl never.

Lemma scan_shrinks fuel :
  (forall s v r, scan_once fuel s = Parsed v r ->
                 (List.length r < List.length s)%nat)
  /\ (forall s v r, array_items fuel s = Parsed v r ->
                    (List.length r < List.length s)%nat)
  /\ (forall s v r, object_items fuel s = Parsed v r ->
                    (List.length r < List.length s)%nat).
Proof.
  induction fuel as [|fuel (IHs & IHa & IHo)];
    [repeat split; intros; discriminate|].
  repeat split; intros s v r H; simpl in H.
  - destruct s as [|c rest]; [discriminate|].
    repeat (break_in H; try discriminate);
    try (apply pmap_Parsed in H; destruct H as (a' & H & _));
    try (injection H as ? ?; subst);
    repeat match goal with
           | E : scanstring _ = Parsed _ _ |- _ => apply scanstring_shrinks in E
           | E : scan_constant _ = Parsed _ _ |- _ => apply scan_constant_shrinks in E
           | E : array_items _ _ = Parsed _ _ |- _ => apply IHa in E
           | E : object_items _ _ = Parsed _ _ |- _ => apply IHo in E
           end;
    use_skip_ws; simpl in *; lia.
  - repeat (break_in H; try discriminate);
    try (apply pmap_Parsed in H; destruct H as (a' & H & _));
    try (injection H as ? ?; subst);
    repeat match goal with
           | E : scan_once _ _ = Parsed _ _ |- _ => apply IHs in E
           | E : array_items _ _ = Parsed _ _ |- _ => apply IHa in E
           end;
    use_skip_ws; simpl in *; lia.
  - repeat (break_in H; try discriminate);
    try (apply pmap_Parsed in H; destruct H as (a' & H & _));
    try (injection H as ? ?; subst);
    repeat match goal with
           | E : scanstring _ = Parsed _ _ |- _ => apply scanstring_shrinks in E
           | E : scan_once _ _ = Parsed _ _ |- _ => apply IHs in E
           | E : object_items _ _ = Parsed _ _ |- _ => apply IHo in E
           end;
    use_skip_ws; simpl in *; lia.
Qed.

Lemma scanstring_fuel_aux n :
  forall s, (List.length s <= n)%nat -> scanstring s <> OutOfFuel.
Proof.
  induction n as [|n IH]; intros s Hn H.
  - destruct s; [discriminate | simpl in Hn; lia].
  - destruct s as [|c rest]; [discriminate|].
    simpl in H.
    repeat (break_in H; try discriminate);
    unfold pcons in *;
    apply pmap_OutOfFuel in H; apply IH in H; auto; simpl in *; lia.
Qed.

Lemma scanstring_fuel s : scanstring s <> OutOfFuel.
Proof. apply scanstring_fuel_aux with (n := List.length s); lia. Qed.

(** With [2 * length s + 1] units of fuel the scanner never gives up. *)
Lemma scan_fuel fuel :
  (forall s, (2 * List.length s + 1 <= fuel)%nat -> scan_once fuel s <> OutOfFuel)
  /\ (forall s, (2 * List.length s + 2 <= fuel)%nat -> array_items fuel s <> OutOfFuel)
  /\ (forall s, (2 * List.length s + 2 <= fuel)%nat -> object_items fuel s <> OutOfFuel).
Proof.
  induction fuel as [|fuel (IHs & IHa & IHo)];
    [repeat split; intros; lia|].
  repeat split; intros s Hf H; simpl in H.
  - destruct s as [|c rest]; [discriminate|]. simpl in Hf.
    repeat (break_in H; try discriminate);
    try (now apply scan_constant_fuel in H);
    apply pmap_OutOfFuel in H;
    try (now apply scanstring_fuel in H);
    use_skip_ws;
    [ apply IHo in H | apply IHa in H ]; auto; simpl in *; lia.
  - repeat (break_in H; try discriminate);
    try apply pmap_OutOfFuel in H;
    repeat match goal with
           | E : scan_once _ _ = Parsed _ _ |- _ =>
             apply (proj1 (scan_shrinks _)) in E
           end;
    use_skip_ws;
    match goal with
    | E : scan_once _ _ = OutOfFuel |- _ => apply IHs in E
    | E : array_items _ _ = OutOfFuel |- _ => apply IHa in E
    end; auto; simpl in *; lia.
  - repeat (break_in H; try discriminate);
    try apply pmap_OutOfFuel in H;
    repeat match goal with
           | E : scan_once _ _ = Parsed _ _ |- _ =>
             apply (proj1 (scan_shrinks _)) in E
           | E : scanstring _ = Parsed _ _ |- _ => apply scanstring_shrinks in E
           | E : scanstring _ = OutOfFuel |- _ => now apply scanstring_fuel in E
           end;
    use_skip_ws;
    match goal with
    | E : scan_once _ _ = OutOfFuel |- _ => apply IHs in E
    | E : object_items _ _ = OutOfFuel |- _ => apply IHo in E
    end; auto; simpl in *; lia.
Qed.

(** [json_loads] does not depend on the fuel of the model: the scan it
    starts always ends with a value, a syntax error or the digit limit. *)
Lemma json_loads_fuel s : scan_once (fuel_for s) (skip_ws s) <> OutOfFuel.
Proof.
  apply (proj1 (scan_fuel _)). pose proof (skip_ws_length s).
  unfold fuel_for. lia.
Qed.

(** ** Strings *)

Lemma pystr_eqb_eq (a b : pystr) : Py.eqb a b = true <-> a = b.
Proof.
  revert b; induction a as [|x a IH]; intros [|y b]; simpl; split;
    try discriminate; try reflexivity.
  - intros H. apply andb_true_iff in H as [Hx Hab].
    apply N.eqb_eq in Hx. apply IH in Hab. now subst.
  - intros H. injection H as -> ->. rewrite N.eqb_refl. now apply IH.
Qed.

Lemma startswith_app (s p : pystr) :
  startswith s p = true <-> exists r, s = p ++ r.
Proof.
  revert s; induction p as [|c p IH]; intros s; simpl.
  - split; [intros _; now exists s | reflexivity].
  - destruct s as [|d s].
    + split; [discriminate | intros [r H]; discriminate].
    + rewrite andb_true_iff, N.eqb_eq, IH. split.
      * intros [-> [r ->]]. now exists r.
      * intros [r H]. injection H as -> ->. eauto.
Qed.

Lemma endswith_app (s suffix : pystr) :
  endswith s suffix = true <-> exists r, s = r ++ suffix.
Proof.
  unfold endswith. rewrite andb_true_iff, Nat.leb_le, pystr_eqb_eq. split.
  - intros [Hlen H]. exists (firstn (List.length s - List.length suffix) s).
    pose proof (firstn_skipn (List.length s - List.length suffix) s) as E.
    rewrite H in E. now symmetry.
  - intros [r ->]. rewrite length_app. split; [lia|].
    replace (List.length r + List.length suffix - List.length suffix)%nat
      with (List.length r + 0)%nat by lia.
    now rewrite skipn_app, Nat.add_0_r, skipn_all, Nat.sub_diag.
Qed.

(** The slice [[7:-3]] of [a ++ body ++ c] with [a] of 7 and [c] of 3
    characters is [body]. *)
Lemma slice_7_m3 (a body c : pystr) :
  List.length a = 7%nat -> List.length c = 3%nat ->
  slice 7 (-3) (a ++ body ++ c) = body.
Proof.
  intros Ha Hc. unfold slice, clamp.
  rewrite !length_app, Ha, Hc.
  set (n := List.length body).
  replace (7 <? 0)%Z with false by reflexivity.
  replace (-3 <? 0)%Z with true by reflexivity.
  replace (Z.max 0 (Z.min (Z.of_nat (7 + (n + 3))) 7)) with 7%Z by lia.
  replace (Z.max 0 (Z.min (Z.of_nat (7 + (n + 3))) (-3 + Z.of_nat (7 + (n + 3)))))
    with (Z.of_nat (7 + n)) by lia.
  replace (Z.to_nat (Z.of_nat (7 + n) - 7)) with n by lia.
  replace (Z.to_nat 7) with (List.length a + 0)%nat by (rewrite Ha; reflexivity).
  rewrite skipn_app, Nat.add_0_r, skipn_all, Nat.sub_diag. simpl.
  unfold n. rewrite firstn_app, Nat.sub_diag, firstn_all. simpl.
  now rewrite app_nil_r.
Qed.

Lemma app_inj_suffix {A} (a c b d : list A) :
  List.length b = List.length d -> a ++ b = c ++ d -> a = c /\ b = d.
Proof.
  revert c; induction a as [|x a IH]; intros [|y c] Hlen H; simpl in *.
  - now split.
  - apply (f_equal (@List.length A)) in H. simpl in H.
    rewrite length_app in H. lia.
  - apply (f_equal (@List.length A)) in H. simpl in H.
    rewrite length_app in H. lia.
  - injection H as -> H. destruct (IH _ Hlen H) as [-> ->]. now split.
Qed.

(** Content that starts with the open fence and ends with the close
    fence is the open fence, a body, and the close fence: the two
    markers cannot overlap. *)
Lemma fenced_inv (content : pystr) :
  startswith content open_fence = true ->
  endswith content close_fence = true ->
  exists body, content = open_fence ++ body ++ close_fence.
Proof.
  intros Hs He. apply startswith_app in Hs as [r ->].
  apply endswith_app in He as [q He].
  destruct (Nat.le_gt_cases 3 (List.length r)) as [Hr|Hr].
  - exists (firstn (List.length r - 3) r). f_equal.
    rewrite <- (firstn_skipn (List.length r - 3) r) in He.
    rewrite app_assoc in He.
    apply app_inj_suffix in He as [_ He].
    + rewrite <- He. symmetry. apply firstn_skipn.
    + rewrite length_skipn. change (List.length close_fence) with 3%nat. lia.
  - exfalso.
    assert (Hlen : List.length (open_fence ++ r) = List.length (q ++ close_fence))
      by now rewrite He.
    rewrite !length_app in Hlen.
    change (List.length open_fence) with 7%nat in Hlen.
    change (List.length close_fence) with 3%nat in Hlen.
    destruct r as [|r0 [|r1 [|r2 r]]]; simpl in Hr, Hlen; try lia;
    destruct q as [|q0 [|q1 [|q2 [|q3 [|q4 [|q5 [|q6 q]]]]]]];
      simpl in Hlen; try lia;
      cbv in He; discriminate He.
Qed.

(** ** The decoder as the script sees it *)

(** The [doc] of a [JSONDecodeError] is the text [json_loads] was
    given. *)
Lemma json_loads_JSONDecodeError_doc s doc :
  json_loads s = Raise (JSONDecodeError doc) -> doc = s.
Proof.
  unfold json_loads. intros H.
  repeat (break_in H; try discriminate); now injection H as <-.
Qed.

(** [json_loads] raises no pydantic [ValidationError]. *)
Lemma json_loads_no_validation_error s : no_validation_error (json_loads s).
Proof.
  unfold json_loads. intros e H.
  repeat (break_in H; try discriminate); now injection H as <-.
Qed.

(** A [JSONDecodeError] of the model is a syntax error of the text, not
    the model running out of fuel. *)
Lemma json_loads_JSONDecodeError_inv s doc :
  json_loads s = Raise (JSONDecodeError doc) ->
  startswith s [65279%N] = true
  \/ scan_once (fuel_for s) (skip_ws s) = Invalid
  \/ exists v rest, scan_once (fuel_for s) (skip_ws s) = Parsed v rest
                    /\ skip_ws rest <> [].
Proof.
  unfold json_loads. intros H.
  destruct (startswith s [65279%N]); [now left | right].
  destruct (scan_once (fuel_for s) (skip_ws s)) as [v rest| | |] eqn:E.
  - right. exists v, rest. split; [reflexivity|].
    destruct (skip_ws rest); [discriminate | congruence].
  - now left.
  - now apply json_loads_fuel in E.
  - discriminate.
Qed.

(** No JSON text starts with a backtick. *)
Lemma json_loads_backtick s :
  json_loads (96%N :: s) = Raise (JSONDecodeError (96%N :: s)).
Proof.
  unfold json_loads, fuel_for.
  change (startswith (96%N :: s) [65279%N]) with false. cbv iota.
  change (skip_ws (96%N :: s)) with (96%N :: s).
  replace (2 * List.length (96%N :: s) + 1)%nat
    with (S (2 * List.length (96%N :: s))) by lia.
  reflexivity.
Qed.

Lemma json_loads_fenced s :
  startswith s open_fence = true -> json_loads s = Raise (JSONDecodeError s).
Proof.
  intros H. apply startswith_app in H as [r ->]. apply json_loads_backtick.
Qed.

(** ** Computations *)

Lemma snd_bind {A B} (m : M A) (k : A -> M B) :
  snd (bind m k) = match snd m with
                   | Ok a => snd (k a)
                   | Raise e => Raise e
                   end.
Proof. destruct m as [t [a|e]]; simpl; [destruct (k a)|]; reflexivity. Qed.

Lemma fst_bind {A B} (m : M A) (k : A -> M B) :
  fst (bind m k) = fst m ++ match snd m with
                            | Ok a => fst (k a)
                            | Raise e => []
                            end.
Proof.
  destruct m as [t [a|e]]; simpl; [destruct (k a)|]; simpl;
    now rewrite ?app_nil_r.
Qed.

(** A handler for [ValidationError] is never run by a body that raises
    no such exception. *)
Lemma try_except_lift_skip {A} (r : result A) handler :
  (forall e, r = Raise e -> is_ValidationError e = false) ->
  try_except (lift r) is_ValidationError handler = lift r.
Proof.
  intros H. unfold try_except, lift. destruct r as [a|e]; [reflexivity|].
  now rewrite (H e eq_refl).
Qed.

(** ** Response parsing *)

(** What [parse_and_validate_response] does, case by case.  The
    [except ValidationError] clause never runs: what [json.loads] raises
    is no [ValidationError] and passes through it. *)
Lemma parse_and_validate_response_run response :
  parse_and_validate_response response =
  match first_content response with
  | Raise e => ([Enter ResponseParsing], Raise e)
  | Ok content =>
    match json_loads (unfence content) with
    | Ok v => ([Enter ResponseParsing;
                Log Info (str "Extracted JSON validated successfully.") None],
               Ok v)
    | Raise e => ([Enter ResponseParsing], Raise e)
    end
  end.
Proof.
  unfold parse_and_validate_response.
  destruct (first_content response) as [content|e]; [|reflexivity].
  simpl. destruct (json_loads (unfence content)) as [v|e] eqn:E; [reflexivity|].
  pose proof (json_loads_no_validation_error _ _ E) as Hv. now destruct e.
Qed.

Lemma parse_and_validate_response_result response :
  snd (parse_and_validate_response response) =
  (content <-- first_content response ;; json_loads (unfence content)).
Proof.
  rewrite parse_and_validate_response_run.
  destruct (first_content response) as [content|e]; [|reflexivity].
  simpl. now destruct (json_loads (unfence content)).
Qed.

Lemma unfence_fenced body :
  unfence (open_fence ++ body ++ close_fence) = strip body.
Proof.
  unfold unfence.
  replace (startswith (open_fence ++ body ++ close_fence) (str "```json"))
    with true by (symmetry; apply startswith_app; eauto).
  replace (endswith (open_fence ++ body ++ close_fence) (str "```"))
    with true
    by (symmetry; apply endswith_app; exists (open_fence ++ body);
        now rewrite <- app_assoc).
  simpl andb. cbv iota. now rewrite slice_7_m3.
Qed.

(** ** Text combination *)

Lemma no_validation_error_rbind {A B} (r : result A) (k : A -> result B) :
  no_validation_error r -> (forall a, no_validation_error (k a)) ->
  no_validation_error (rbind r k).
Proof.
  intros Hr Hk e. destruct r as [a|e']; simpl.
  - apply Hk.
  - intros H. injection H as <-. now apply Hr.
Qed.

Lemma getitem_no_validation_error obj key : no_validation_error (getitem obj key).
Proof.
  intros e. destruct obj; simpl; try (intros H; now injection H as <-).
  destruct (dict_get members key); [discriminate|].
  intros H; now injection H as <-.
Qed.

Lemma iter_no_validation_error obj : no_validation_error (iter obj).
Proof.
  intros e. destruct obj; simpl; try discriminate;
    intros H; now injection H as <-.
Qed.

Lemma add_str_no_validation_error v s : no_validation_error (add_str v s).
Proof.
  intros e. destruct v; simpl; try discriminate;
    intros H; now injection H as <-.
Qed.

Create HintDb pyexn discriminated.
#[local] Hint Resolve getitem_no_validation_error iter_no_validation_error
  add_str_no_validation_error json_loads_no_validation_error : pyexn.

(** A chain of [rbind]s raises no [ValidationError] when no link does. *)
Ltac no_validation_error :=
  repeat (apply no_validation_error_rbind; [|intros ?]); auto with pyexn.

Lemma pages_loop_no_validation_error pages :
  forall combined_text, no_validation_error (pages_loop pages combined_text).
Proof.
  induction pages as [|page pages IH]; intros acc; simpl.
  - discriminate.
  - no_validation_error.
Qed.

#[local] Hint Resolve pages_loop_no_validation_error : pyexn.

(** The value of the body of the outer loop: the [except] clause of the
    script adds nothing to it. *)
Lemma blob_body_result blob combined_text :
  snd (blob_body blob combined_text) =
  (data <-- download_as_bytes blob ;;
   json_string <-- decode_utf8 data ;;
   response <-- json_loads json_string ;;
   responses <-- getitem response (str "responses") ;;
   pages <-- iter responses ;;
   pages_loop pages combined_text).
Proof.
  unfold blob_body. rewrite snd_bind. unfold call; cbn [snd].
  destruct (download_as_bytes blob) as [data|e]; [|reflexivity].
  rewrite snd_bind. unfold lift at 1; cbn [snd rbind].
  destruct (decode_utf8 data) as [json_string|e]; [|reflexivity].
  rewrite try_except_lift_skip; [reflexivity|].
  no_validation_error.
Qed.

Lemma blobs_loop_cons blob blob_list combined_text :
  snd (blobs_loop (blob :: blob_list) combined_text) =
  match snd (blob_body blob combined_text) with
  | Ok combined_text' => snd (blobs_loop blob_list combined_text')
  | Raise e => Raise e
  end.
Proof. simpl. apply snd_bind. Qed.

Lemma get_combined_extract_text_result blob_list :
  snd (get_combined_extract_text blob_list) = snd (blobs_loop blob_list []).
Proof.
  unfold get_combined_extract_text. rewrite snd_bind. simpl.
  rewrite snd_bind. now destruct (snd (blobs_loop blob_list [])).
Qed.

Lemma field_getitem key j v :
  field key j = Some v -> getitem j (str key) = Ok v.
Proof.
  destruct j; simpl; try discriminate. now intros ->.
Qed.

Lemma field_None_getitem key j :
  field key j = None -> exists e, getitem j (str key) = Raise e.
Proof.
  destruct j; simpl; eauto. intros ->. eauto.
Qed.

(** The inner loop on pages that all carry their text. *)
Lemma pages_loop_texts pages :
  forall ts combined_text,
    traverse page_text pages = Some ts ->
    pages_loop pages combined_text
    = Ok (combined_text ++ flat_map (fun t => t ++ nl) ts).
Proof.
  induction pages as [|page pages IH]; simpl; intros ts acc H.
  - injection H as <-. simpl. now rewrite app_nil_r.
  - destruct (page_text page) as [t|] eqn:Et; [|discriminate].
    destruct (traverse page_text pages) as [ts'|] eqn:Ets; [|discriminate].
    injection H as <-.
    unfold page_text in Et.
    destruct (field "fullTextAnnotation" page) as [annotation|] eqn:Ea;
      [|discriminate].
    destruct (field "text" annotation) as [[]|] eqn:Ex; try discriminate.
    injection Et as ->.
    rewrite (field_getitem _ _ _ Ea). simpl.
    rewrite (field_getitem _ _ _ Ex). simpl.
    rewrite (IH _ _ eq_refl). simpl. now rewrite <- !app_assoc.
Qed.

Lemma blob_body_well_formed blob ts combined_text :
  page_texts blob = Some ts ->
  snd (blob_body blob combined_text)
  = Ok (combined_text ++ flat_map (fun t => t ++ nl) ts).
Proof.
  rewrite blob_body_result. unfold page_texts, responses.
  destruct (download_as_bytes blob) as [data|]; [|discriminate]. cbn [rbind].
  destruct (decode_utf8 data) as [text|]; [|discriminate]. cbn [rbind].
  destruct (json_loads text) as [payload|]; [|discriminate]. cbn [rbind].
  destruct (field "responses" payload) as [[]|] eqn:Er; try discriminate.
  intros H. rewrite (field_getitem _ _ _ Er). cbn [rbind iter].
  now apply pages_loop_texts.
Qed.

Lemma blobs_loop_well_formed blob_list :
  forall combined_text,
    forallb well_formed blob_list = true ->
    snd (blobs_loop blob_list combined_text)
    = Ok (combined_text ++ Spec.combined_text blob_list).
Proof.
  induction blob_list as [|blob blob_list IH]; intros acc H.
  - simpl. now rewrite app_nil_r.
  - simpl in H. apply andb_true_iff in H as [Hb H].
    rewrite blobs_loop_cons. unfold well_formed in Hb.
    destruct (page_texts blob) as [ts|] eqn:Ets; [|discriminate].
    rewrite (blob_body_well_formed _ _ _ Ets). rewrite (IH _ H).
    unfold Spec.combined_text. simpl. rewrite Ets.
    now rewrite flat_map_app, app_assoc.
Qed.

Lemma get_combined_extract_text_well_formed blob_list :
  forallb well_formed blob_list = true ->
  snd (get_combined_extract_text blob_list) = Ok (Spec.combined_text blob_list).
Proof.
  intros H. rewrite get_combined_extract_text_result.
  now rewrite blobs_loop_well_formed.
Qed.

(** C1.  For every list of OCR output blobs whose payloads are
    well-formed (valid UTF-8, valid JSON, every page of the [responses]
    list carrying [fullTextAnnotation.text]), text combination returns
    the concatenation, in blob order and then page order, of each page's
    text followed by a newline.  For the two blobs with one page each,
    [Page1] and [Page2], the result is [Page1\nPage2\n]. *)
Theorem combined_text_is_concatenation :
  (forall blob_list,
      forallb well_formed blob_list = true ->
      snd (get_combined_extract_text blob_list)
      = Ok (Spec.combined_text blob_list))
  /\ snd (get_combined_extract_text [blob_page1; blob_page2])
     = Ok (str "Page1" ++ nl ++ str "Page2" ++ nl).
Proof.
  split.
  - apply get_combined_extract_text_well_formed.
  - vm_compute. reflexivity.
Qed.

Lemma combined_text_is_concatenation_witness :
  forallb well_formed [blob_page1; blob_no_pages; blob_page2] = true
  /\ snd (get_combined_extract_text [blob_page1; blob_no_pages; blob_page2])
     = Ok (Spec.combined_text [blob_page1; blob_no_pages; blob_page2]).
Proof.
  split; [reflexivity|].
  apply (proj1 combined_text_is_concatenation). reflexivity.
Defined.

(** ** The orchestrator *)

(** [process_document] unfolded: the four steps one after the other, the
    first exception ending the run. *)
Lemma process_document_run w source destination prompt_id :
  process_document w source destination prompt_id =
  let m1 := GoogleVisionClient.async_detect_document
              w source destination (str "application/pdf") 2 in
  match snd m1 with
  | Raise e => (fst m1, Raise e)
  | Ok blob_list =>
    let m2 := get_combined_extract_text blob_list in
    match snd m2 with
    | Raise e => (fst m1 ++ fst m2, Raise e)
    | Ok combined_text =>
      let m3 := PortkeyClient.send_to_portkey w prompt_id combined_text in
      match snd m3 with
      | Raise e => (fst m1 ++ fst m2 ++ fst m3, Raise e)
      | Ok response =>
        let m4 := parse_and_validate_response response in
        (fst m1 ++ fst m2 ++ fst m3 ++ fst m4, snd m4)
      end
    end
  end.
Proof.
  unfold process_document.
  destruct (GoogleVisionClient.async_detect_document _ _ _ _ _)
    as [t1 [blob_list|e]]; [|reflexivity].
  cbn [bind fst snd].
  destruct (get_combined_extract_text blob_list)
    as [t2 [combined_text|e]]; [|reflexivity].
  cbn [bind fst snd].
  destruct (PortkeyClient.send_to_portkey w prompt_id combined_text)
    as [t3 [response|e]]; [|reflexivity].
  cbn [bind fst snd].
  destruct (parse_and_validate_response response) as [t4 [v|e]];
    cbn [bind ret fst snd]; now rewrite ?app_nil_r.
Qed.

Lemma steps_of_app t t' : steps_of (t ++ t') = steps_of t ++ steps_of t'.
Proof.
  induction t as [|ev t IH]; simpl; [reflexivity|].
  destruct ev; simpl; now rewrite IH.
Qed.

Lemma async_detect_document_steps w source destination mime_type batch_size :
  steps_of (fst (GoogleVisionClient.async_detect_document
                   w source destination mime_type batch_size))
  = [OcrSubmission].
Proof.
  unfold GoogleVisionClient.async_detect_document, call, lift, info, emit.
  destruct (async_batch_annotate_files w _ _ _ _); [|reflexivity].
  destruct (operation_result w 420); [|reflexivity].
  destruct (storage_Client w); [|reflexivity].
  destruct destination as [uri|]; [|reflexivity].
  destruct (match_gs_uri uri) as [[bucket_name prefix]|]; [|reflexivity].
  cbn [bind fst snd app].
  now destruct (list_blobs w bucket_name prefix).
Qed.

Lemma blob_body_trace blob combined_text :
  fst (blob_body blob combined_text) = [Request (Download (name blob))].
Proof.
  unfold blob_body, call.
  destruct (download_as_bytes blob) as [data|e]; [|reflexivity].
  cbn [bind]. destruct (decode_utf8 data) as [json_string|e]; [|reflexivity].
  cbn [lift bind]. rewrite try_except_lift_skip.
  - reflexivity.
  - no_validation_error.
Qed.

Lemma blobs_loop_steps blob_list :
  forall combined_text, steps_of (fst (blobs_loop blob_list combined_text)) = [].
Proof.
  induction blob_list as [|blob blob_list IH]; intros acc; [reflexivity|].
  simpl. rewrite fst_bind, steps_of_app, blob_body_trace. simpl.
  destruct (snd (blob_body blob acc)); [apply IH | reflexivity].
Qed.

Lemma get_combined_extract_text_steps blob_list :
  steps_of (fst (get_combined_extract_text blob_list)) = [TextCombination].
Proof.
  unfold get_combined_extract_text.
  rewrite fst_bind. cbn [emit fst snd app steps_of]. f_equal.
  rewrite fst_bind, steps_of_app, blobs_loop_steps.
  now destruct (snd (blobs_loop blob_list [])).
Qed.

Lemma send_to_portkey_steps w prompt_id text :
  steps_of (fst (PortkeyClient.send_to_portkey w prompt_id text))
  = [CompletionRequest].
Proof.
  unfold PortkeyClient.send_to_portkey, call.
  now destruct (completions_create w prompt_id text).
Qed.

Lemma parse_and_validate_response_steps response :
  steps_of (fst (parse_and_validate_response response)) = [ResponseParsing].
Proof.
  rewrite parse_and_validate_response_run.
  destruct (first_content response) as [content|]; [|reflexivity].
  now destruct (json_loads (unfence content)).
Qed.

(** C9.  Every invocation of the document processor runs OCR
    submission, text combination, completion request and response
    parsing in this order, each at most once.  When all four succeed the
    record returned is the one response parsing produced; when a step
    raises, the run ends there with that exception, the later steps are
    not entered and no value is returned. *)
Theorem process_document_strict_sequence w source destination prompt_id :
  let run := process_document w source destination prompt_id in
  let m1 := GoogleVisionClient.async_detect_document
              w source destination (str "application/pdf") 2 in
  match snd m1 with
  | Raise e =>
    snd run = Raise e /\ steps_of (fst run) = [OcrSubmission]
  | Ok blob_list =>
    match snd (get_combined_extract_text blob_list) with
    | Raise e =>
      snd run = Raise e
      /\ steps_of (fst run) = [OcrSubmission; TextCombination]
    | Ok combined_text =>
      match snd (PortkeyClient.send_to_portkey w prompt_id combined_text) with
      | Raise e =>
        snd run = Raise e
        /\ steps_of (fst run)
           = [OcrSubmission; TextCombination; CompletionRequest]
      | Ok response =>
        snd run = snd (parse_and_validate_response response)
        /\ steps_of (fst run)
           = [OcrSubmission; TextCombination; CompletionRequest;
              ResponseParsing]
      end
    end
  end.
Proof.
  cbv zeta. rewrite process_document_run. cbv zeta.
  destruct (snd (GoogleVisionClient.async_detect_document _ _ _ _ _))
    as [blob_list|e] eqn:E1; cbn [fst snd].
  2: { split; [reflexivity | apply async_detect_document_steps]. }
  destruct (snd (get_combined_extract_text blob_list))
    as [combined_text|e] eqn:E2; cbn [fst snd].
  2: { split; [reflexivity|].
       now rewrite steps_of_app, async_detect_document_steps,
         get_combined_extract_text_steps. }
  destruct (snd (PortkeyClient.send_to_portkey w prompt_id combined_text))
    as [response|e] eqn:E3; cbn [fst snd].
  2: { split; [reflexivity|].
       now rewrite !steps_of_app, async_detect_document_steps,
         get_combined_extract_text_steps, send_to_portkey_steps. }
  split; [reflexivity|].
  now rewrite !steps_of_app, async_detect_document_steps,
    get_combined_extract_text_steps, send_to_portkey_steps,
    parse_and_validate_response_steps.
Qed.

(** ** Empty text and defective payloads *)

Lemma traverse_nil {A B} (f : A -> option B) l :
  traverse f l = Some [] -> l = [].
Proof.
  destruct l as [|a l]; [reflexivity|]. simpl.
  destruct (f a); [|discriminate]. now destruct (traverse f l).
Qed.

Lemma lines_nil (ts : list pystr) :
  flat_map (fun t => t ++ nl) ts = [] <-> ts = [].
Proof.
  split; [|now intros ->].
  destruct ts as [|t ts]; [reflexivity|]. simpl. intros H.
  apply app_eq_nil in H as [H _]. apply app_eq_nil in H as [_ H].
  discriminate.
Qed.

(** On well-formed blobs there is no text exactly when no blob has a
    page. *)
Lemma combined_text_nil blob_list :
  forallb well_formed blob_list = true ->
  (Spec.combined_text blob_list = []
   <-> Forall (fun b => responses b = Some []) blob_list).
Proof.
  unfold Spec.combined_text. rewrite lines_nil.
  induction blob_list as [|b blob_list IH]; simpl; intros H.
  - split; auto.
  - apply andb_true_iff in H as [Hb H]. specialize (IH H).
    unfold well_formed in Hb.
    destruct (page_texts b) as [ts|] eqn:Ets; [|discriminate].
    split.
    + intros E. apply app_eq_nil in E as [-> E].
      constructor; [|now apply IH].
      unfold page_texts in Ets.
      destruct (responses b) as [pages|]; [|discriminate].
      now rewrite (traverse_nil _ _ Ets).
    + intros F. inversion F as [|? ? Hr F']; subst.
      unfold page_texts in Ets. rewrite Hr in Ets. injection Ets as <-.
      simpl. now apply IH.
Qed.

(** A page without annotation stops the inner loop, whatever came
    before it. *)
Lemma pages_loop_without_annotation pages page :
  In page pages -> field "fullTextAnnotation" page = None ->
  forall combined_text, exists e, pages_loop pages combined_text = Raise e.
Proof.
  intros Hin Hf. induction pages as [|p pages IH]; [contradiction|].
  intros acc. simpl.
  destruct Hin as [->|Hin].
  - destruct (field_None_getitem _ _ Hf) as [e ->]. simpl. eauto.
  - destruct (getitem p (str "fullTextAnnotation")) as [a|e]; simpl; eauto.
    destruct (getitem a (str "text")) as [t|e]; simpl; eauto.
    destruct (add_str t nl) as [line|e]; simpl; eauto.
Qed.

Lemma blob_body_without_annotation blob pages page :
  responses blob = Some pages ->
  In page pages -> field "fullTextAnnotation" page = None ->
  forall combined_text, exists e, snd (blob_body blob combined_text) = Raise e.
Proof.
  intros Hr Hin Hf acc. rewrite blob_body_result. unfold responses in Hr.
  destruct (download_as_bytes blob) as [data|]; [|discriminate]. cbn [rbind].
  destruct (decode_utf8 data) as [text|]; [|discriminate]. cbn [rbind].
  destruct (json_loads text) as [payload|]; [|discriminate]. cbn [rbind].
  destruct (field "responses" payload) as [[]|] eqn:Er; try discriminate.
  injection Hr as ->. rewrite (field_getitem _ _ _ Er). cbn [rbind iter].
  now apply pages_loop_without_annotation with (page := page).
Qed.

Lemma forallb_false_In {A} (f : A -> bool) l :
  forallb f l = false -> exists a, In a l /\ f a = false.
Proof.
  induction l as [|a l IH]; simpl; [discriminate|].
  destruct (f a) eqn:E; simpl.
  - intros H. destruct (IH H) as (a' & Hin & Ha). eauto.
  - eauto.
Qed.

(** A payload with one of the three defects makes the body of the outer
    loop raise. *)
Lemma blob_body_defect blob d :
  defect_of blob = Some d ->
  forall combined_text, exists e, snd (blob_body blob combined_text) = Raise e.
Proof.
  intros Hd acc.
  destruct (responses blob) as [pages|] eqn:Hr.
  - unfold defect_of in Hd. unfold responses in Hr.
    destruct (download_as_bytes blob) as [data|] eqn:E0; [|discriminate].
    destruct (decode_utf8 data) as [text|] eqn:E1; [|discriminate].
    destruct (json_loads text) as [payload|] eqn:E2; [|discriminate].
    destruct (field "responses" payload) as [[]|] eqn:Er; try discriminate.
    injection Hr as ->.
    destruct (forallb has_annotation pages) eqn:Ea; [discriminate|].
    apply forallb_false_In in Ea as (page & Hin & Hp).
    apply blob_body_without_annotation with (pages := pages) (page := page);
      auto.
    + unfold responses. now rewrite E0, E1, E2, Er.
    + unfold has_annotation in Hp.
      now destruct (field "fullTextAnnotation" page).
  - rewrite blob_body_result. unfold defect_of in Hd. unfold responses in Hr.
    destruct (download_as_bytes blob) as [data|]; [|discriminate]. cbn [rbind].
    destruct (decode_utf8 data) as [text|]; cbn [rbind]; eauto.
    destruct (json_loads text) as [payload|]; cbn [rbind]; eauto.
    destruct (field "responses" payload) as [[]|]; discriminate.
Qed.

(** One raising blob makes the outer loop raise: the blobs before it
    either raise themselves or hand the loop on. *)
Lemma blobs_loop_raises blob_list blob :
  In blob blob_list ->
  (forall combined_text, exists e, snd (blob_body blob combined_text) = Raise e) ->
  forall combined_text,
  exists e, snd (blobs_loop blob_list combined_text) = Raise e.
Proof.
  intros Hin Hb. induction blob_list as [|b blob_list IH]; [contradiction|].
  intros acc. rewrite blobs_loop_cons. destruct Hin as [->|Hin].
  - destruct (Hb acc) as [e ->]. eauto.
  - destruct (snd (blob_body b acc)); eauto.
Qed.

(** C7.  On well-formed blobs the combined text is empty if and only if
    the blob list is empty or the [responses] list of every blob is
    empty; and a blob with a page that has no [fullTextAnnotation] makes
    text combination raise: it contributes no empty text. *)
Theorem combined_text_empty_iff :
  (forall blob_list,
      forallb well_formed blob_list = true ->
      (snd (get_combined_extract_text blob_list) = Ok []
       <-> blob_list = []
           \/ Forall (fun b => responses b = Some []) blob_list))
  /\ (forall blob_list blob pages page,
         In blob blob_list -> responses blob = Some pages ->
         In page pages -> field "fullTextAnnotation" page = None ->
         exists e, snd (get_combined_extract_text blob_list) = Raise e).
Proof.
  split.
  - intros blob_list H.
    rewrite (get_combined_extract_text_well_formed _ H).
    split.
    + intros E. injection E as E. right. now apply combined_text_nil.
    + intros [->|F]; [reflexivity|]. f_equal. now apply combined_text_nil.
  - intros blob_list blob pages page Hin Hr Hp Hf.
    rewrite get_combined_extract_text_result.
    apply blobs_loop_raises with (blob := blob); auto.
    now apply blob_body_without_annotation with (pages := pages) (page := page).
Qed.

Lemma combined_text_empty_iff_witness :
  (snd (get_combined_extract_text [blob_no_pages; blob_no_pages]) = Ok []
   <-> [blob_no_pages; blob_no_pages] = []
       \/ Forall (fun b => responses b = Some [])
                 [blob_no_pages; blob_no_pages])
  /\ exists e,
      snd (get_combined_extract_text [blob_page1; blob_blank_page]) = Raise e.
Proof.
  split.
  - apply (proj1 combined_text_empty_iff). reflexivity.
  - apply (proj2 combined_text_empty_iff)
      with (blob := blob_blank_page) (pages := [JObj []]) (page := JObj []).
    + simpl. right. left. reflexivity.
    + reflexivity.
    + simpl. left. reflexivity.
    + reflexivity.
Defined.

(** C8.  When some blob of the list has a payload that is not UTF-8, is
    not JSON, or has a page without [fullTextAnnotation], text
    combination raises; it returns no text, and the document processor
    that called it ends with the same exception right after the text
    combination step, so that no partial text reaches the gateway. *)
Theorem defective_blob_raises blob_list blob d :
  In blob blob_list -> defect_of blob = Some d ->
  exists e,
    snd (get_combined_extract_text blob_list) = Raise e
    /\ forall w source destination prompt_id,
        snd (GoogleVisionClient.async_detect_document
               w source destination (str "application/pdf") 2) = Ok blob_list ->
        snd (process_document w source destination prompt_id) = Raise e
        /\ steps_of (fst (process_document w source destination prompt_id))
           = [OcrSubmission; TextCombination].
Proof.
  intros Hin Hd.
  destruct (blobs_loop_raises blob_list blob Hin (blob_body_defect _ _ Hd) [])
    as [e He].
  rewrite <- get_combined_extract_text_result in He.
  exists e. split; [exact He|].
  intros w source destination prompt_id H1.
  rewrite process_document_run. cbv zeta. rewrite H1, He. cbn [fst snd].
  split; [reflexivity|].
  now rewrite steps_of_app, async_detect_document_steps,
    get_combined_extract_text_steps.
Qed.

Lemma defective_blob_raises_witness :
  exists e,
    snd (get_combined_extract_text [blob_page1; blob_truncated; blob_page2])
    = Raise e
    /\ snd (pipeline world_truncated) = Raise e
    /\ steps_of (fst (pipeline world_truncated))
       = [OcrSubmission; TextCombination].
Proof.
  destruct (defective_blob_raises
              [blob_page1; blob_truncated; blob_page2] blob_truncated
              MalformedJson (or_intror (or_introl eq_refl)) eq_refl)
    as (e & He & Hp).
  exists e. split; [exact He|].
  apply Hp. reflexivity.
Defined.

(** ** [main] *)

Lemma no_output_app t t' : no_output (t ++ t') = no_output t && no_output t'.
Proof. apply forallb_app. Qed.

Lemma async_detect_document_no_output w source destination mime_type batch_size :
  no_output (fst (GoogleVisionClient.async_detect_document
                    w source destination mime_type batch_size)) = true.
Proof.
  unfold GoogleVisionClient.async_detect_document, call, lift, info, emit.
  destruct (async_batch_annotate_files w _ _ _ _); [|reflexivity].
  destruct (operation_result w 420); [|reflexivity].
  destruct (storage_Client w); [|reflexivity].
  destruct destination as [uri|]; [|reflexivity].
  destruct (match_gs_uri uri) as [[bucket_name prefix]|]; [|reflexivity].
  cbn [bind fst snd app].
  now destruct (list_blobs w bucket_name prefix).
Qed.

Lemma blobs_loop_no_output blob_list :
  forall combined_text,
    no_output (fst (blobs_loop blob_list combined_text)) = true.
Proof.
  induction blob_list as [|blob blob_list IH]; intros acc; [reflexivity|].
  simpl. rewrite fst_bind, no_output_app, blob_body_trace. simpl.
  destruct (snd (blob_body blob acc)); [apply IH | reflexivity].
Qed.

Lemma get_combined_extract_text_no_output blob_list :
  no_output (fst (get_combined_extract_text blob_list)) = true.
Proof.
  unfold get_combined_extract_text.
  rewrite fst_bind. cbn [emit fst snd app no_output forallb is_print negb andb].
  rewrite fst_bind, no_output_app, blobs_loop_no_output.
  now destruct (snd (blobs_loop blob_list [])).
Qed.

Lemma send_to_portkey_no_output w prompt_id text :
  no_output (fst (PortkeyClient.send_to_portkey w prompt_id text)) = true.
Proof.
  unfold PortkeyClient.send_to_portkey, call.
  now destruct (completions_create w prompt_id text).
Qed.

Lemma parse_and_validate_response_no_output response :
  no_output (fst (parse_and_validate_response response)) = true.
Proof.
  rewrite parse_and_validate_response_run.
  destruct (first_content response) as [content|]; [|reflexivity].
  now destruct (json_loads (unfence content)).
Qed.

(** Nothing inside [process_document] writes to standard output. *)
Lemma process_document_no_output w source destination prompt_id :
  no_output (fst (process_document w source destination prompt_id)) = true.
Proof.
  rewrite process_document_run. cbv zeta.
  pose proof (async_detect_document_no_output
                w source destination (str "application/pdf") 2) as H1.
  destruct (snd (GoogleVisionClient.async_detect_document _ _ _ _ _))
    as [blob_list|]; cbn [fst]; [|exact H1].
  pose proof (get_combined_extract_text_no_output blob_list) as H2.
  destruct (snd (get_combined_extract_text blob_list)) as [combined_text|];
    cbn [fst]; [|now rewrite no_output_app, H1, H2].
  pose proof (send_to_portkey_no_output w prompt_id combined_text) as H3.
  destruct (snd (PortkeyClient.send_to_portkey w prompt_id combined_text))
    as [response|]; cbn [fst].
  - now rewrite !no_output_app, H1, H2, H3,
      parse_and_validate_response_no_output.
  - now rewrite !no_output_app, H1, H2, H3.
Qed.

(** [main] once both clients are constructed: the pipeline runs on the
    settings as read, and either outcome ends in a normal return. *)
Lemma main_run w :
  clients_constructed w ->
  main w =
  match snd (pipeline w) with
  | Ok result =>
    (main_preamble ++ fst (pipeline w)
       ++ [Log Info (str "Document processing completed successfully.") None;
           Stdout (Line (str "Extracted JSON Output:"));
           Stdout (JsonDumps result 4)],
     Ok tt)
  | Raise e =>
    (main_preamble ++ fst (pipeline w)
       ++ [Log Error (str "Document processing failed: ") (Some e)],
     Ok tt)
  end.
Proof.
  intros [Hv Hp]. unfold main, pipeline.
  unfold ClientFactory.create_vision_client, GoogleVisionClient.__init__,
    ClientFactory.create_portkey_client, PortkeyClient.__init__,
    ClientFactory.create_text_extractor.
  rewrite Hv, Hp.
  destruct (process_document _ _ _ _) as [t [result|e]]; reflexivity.
Qed.

Lemma async_detect_document_head w source destination mime_type batch_size :
  exists rest,
    fst (GoogleVisionClient.async_detect_document
           w source destination mime_type batch_size)
    = Enter OcrSubmission
        :: Request (Annotate source destination mime_type batch_size) :: rest.
Proof.
  unfold GoogleVisionClient.async_detect_document.
  rewrite fst_bind. cbn [emit fst snd app]. rewrite fst_bind.
  cbn [call fst app]. eauto.
Qed.

Lemma process_document_head w source destination prompt_id :
  exists rest,
    fst (process_document w source destination prompt_id)
    = Enter OcrSubmission
        :: Request (Annotate source destination (str "application/pdf") 2)
        :: rest.
Proof.
  unfold process_document. rewrite fst_bind.
  destruct (async_detect_document_head
              w source destination (str "application/pdf") 2) as [rest ->].
  cbn [app]. eauto.
Qed.

(** C2, as the code has it.  Whenever the pipeline fails, [main] logs
    the error [Document processing failed] with the exception, writes
    nothing to standard output and returns normally: the exit status is
    0, which is also the exit status of a successful run. *)
Theorem main_failure_logged_exit_zero w :
  clients_constructed w ->
  exit_status (main w) = 0%Z
  /\ forall e,
      snd (pipeline w) = Raise e ->
      In (Log Error (str "Document processing failed: ") (Some e)) (fst (main w))
      /\ no_output (fst (main w)) = true
      /\ snd (main w) = Ok tt.
Proof.
  intros Hc. rewrite (main_run w Hc). split.
  - now destruct (snd (pipeline w)).
  - intros e He. rewrite He. cbn [fst snd]. repeat split.
    + rewrite !in_app_iff. right. right. now left.
    + rewrite !no_output_app. unfold pipeline.
      now rewrite process_document_no_output.
Qed.

Lemma main_failure_logged_exit_zero_witness :
  exit_status (main world_timeout) = 0%Z
  /\ In (Log Error (str "Document processing failed: ") (Some TimeoutError))
        (fst (main world_timeout))
  /\ no_output (fst (main world_timeout)) = true
  /\ snd (main world_timeout) = Ok tt.
Proof.
  destruct (main_failure_logged_exit_zero world_timeout (conj eq_refl eq_refl))
    as [H0 H].
  split; [exact H0|].
  apply (H TimeoutError). reflexivity.
Defined.

(** C2, as stated, fails: when the OCR job times out the pipeline fails,
    and the exit status is 0, the exit status of the successful run. *)
Lemma exit_status_not_distinct_counterexample :
  snd (pipeline world_timeout) = Raise TimeoutError
  /\ exit_status (main world_timeout) = 0%Z
  /\ snd (pipeline world_ok) = Ok a1
  /\ exit_status (main world_ok) = 0%Z.
Proof. repeat split; vm_compute; reflexivity. Qed.

(** C3, as the code has it.  [main] checks no setting: once the clients
    are constructed it logs its four messages and enters OCR submission
    with the input and output locations as [os.getenv] returned them,
    absent or not; no error is reported before that step. *)
Theorem main_starts_pipeline_unchecked w :
  clients_constructed w ->
  (exists rest,
      fst (main w)
      = main_preamble
          ++ Enter OcrSubmission
          :: Request (Annotate (getenv w (str "INPUT_DOCUMENT_PATH"))
                               (getenv w (str "OUTPUT_DOCUMENT_PATH"))
                               (str "application/pdf") 2)
          :: rest)
  /\ error_before_pipeline (fst (main w)) = false
  /\ pipeline_not_started (fst (main w)) = false.
Proof.
  intros Hc. rewrite (main_run w Hc). unfold pipeline.
  destruct (process_document_head
              w (getenv w (str "INPUT_DOCUMENT_PATH"))
              (getenv w (str "OUTPUT_DOCUMENT_PATH"))
              (getenv w (str "PORTKEY_PROMPT_ID"))) as [rest Hd].
  destruct (snd (process_document _ _ _ _)); cbn [fst]; rewrite Hd;
    (split; [eexists; cbn [app]; reflexivity | split; reflexivity]).
Qed.

Lemma main_starts_pipeline_unchecked_witness :
  (exists rest,
      fst (main world_no_input)
      = main_preamble
          ++ Enter OcrSubmission
          :: Request (Annotate (getenv world_no_input (str "INPUT_DOCUMENT_PATH"))
                               (getenv world_no_input (str "OUTPUT_DOCUMENT_PATH"))
                               (str "application/pdf") 2)
          :: rest)
  /\ error_before_pipeline (fst (main world_no_input)) = false
  /\ pipeline_not_started (fst (main world_no_input)) = false.
Proof.
  apply (main_starts_pipeline_unchecked world_no_input).
  split; reflexivity.
Defined.

(** C3, as stated, fails: with [INPUT_DOCUMENT_PATH] unset the run goes
    into OCR submission, with no source, before any error is reported. *)
Lemma missing_setting_not_reported_counterexample :
  setting_missing world_no_input = true
  /\ getenv world_no_input (str "INPUT_DOCUMENT_PATH") = None
  /\ fst (main world_no_input)
     = main_preamble
         ++ [Enter OcrSubmission;
             Request (Annotate None (Some (str "gs://docs/out/"))
                               (str "application/pdf") 2);
             Log Error (str "Document processing failed: ")
                 (Some (ServiceError (str "400 no input uri")))]
  /\ error_before_pipeline (fst (main world_no_input)) = false
  /\ pipeline_not_started (fst (main world_no_input)) = false.
Proof. repeat split; vm_compute; reflexivity. Qed.

(** ** Stripping *)

Lemma lstrip_length s : (List.length (lstrip s) <= List.length s)%nat.
Proof.
  induction s as [|c s IH]; simpl; [lia|].
  destruct (isspace c); simpl; lia.
Qed.

Lemma rstrip_length s : (List.length (rstrip s) <= List.length s)%nat.
Proof.
  unfold rstrip. rewrite length_rev.
  pose proof (lstrip_length (rev s)) as H. now rewrite length_rev in H.
Qed.

Lemma lstrip_fixed s : List.length (lstrip s) = List.length s -> lstrip s = s.
Proof.
  destruct s as [|c s]; [reflexivity|]. simpl.
  destruct (isspace c); [|reflexivity].
  pose proof (lstrip_length s). intros E. lia.
Qed.

(** Text that [strip] leaves alone is left alone by both halves. *)
Lemma strip_fixed s : strip s = s -> lstrip s = s /\ rstrip s = s.
Proof.
  unfold strip. intros H.
  assert (L : lstrip s = s).
  { apply lstrip_fixed. pose proof (lstrip_length s).
    pose proof (rstrip_length (lstrip s)) as R. rewrite H in R. lia. }
  split; [exact L|]. now rewrite L in H.
Qed.

Lemma lstrip_nl s : lstrip (nl ++ s) = lstrip s.
Proof. reflexivity. Qed.

Lemma rstrip_nl s : rstrip (s ++ nl) = rstrip s.
Proof. unfold rstrip. now rewrite rev_app_distr. Qed.

(** A newline on either side of text that has no surrounding whitespace
    of its own is all that [strip] removes. *)
Lemma strip_nl_padded s : s <> [] -> strip s = s -> strip (nl ++ s ++ nl) = s.
Proof.
  intros Hne H. destruct (strip_fixed s H) as [L R].
  unfold strip. rewrite lstrip_nl.
  destruct s as [|c s]; [congruence|].
  simpl in L. simpl.
  destruct (isspace c) eqn:E.
  - pose proof (lstrip_length s) as Hl. rewrite L in Hl. simpl in Hl. lia.
  - change (c :: s ++ nl) with ((c :: s) ++ nl). now rewrite rstrip_nl.
Qed.

(** ** Fences *)

Lemma unfence_unfenced content :
  startswith content open_fence && endswith content close_fence = false ->
  unfence content = content.
Proof.
  unfold unfence, open_fence, close_fence. now intros ->.
Qed.

(** C4, as the code has it.  When [json.loads] raises on the content
    of the completion, after fence stripping, response parsing ends with
    that very exception: the handler of the script does not intercept
    it and nothing is logged by the parser.  When the exception is a
    [JSONDecodeError], it carries the rejected text as its [doc].  For
    the content [not json] the exception carries [not json], and it is
    the exception [main] reports. *)
Theorem parse_error_surfaces_with_content :
  (forall response content e,
      first_content response = Ok content ->
      json_loads (unfence content) = Raise e ->
      parse_and_validate_response response
      = ([Enter ResponseParsing], Raise e)
      /\ forall doc, e = JSONDecodeError doc -> doc = unfence content)
  /\ snd (parse_and_validate_response (completion (str "not json")))
     = Raise (JSONDecodeError (str "not json"))
  /\ In (Log Error (str "Document processing failed: ")
             (Some (JSONDecodeError (str "not json"))))
        (fst (main world_not_json)).
Proof.
  split; [|split].
  - intros response content e Hc He. split.
    + now rewrite parse_and_validate_response_run, Hc, He.
    + intros doc ->. now apply json_loads_JSONDecodeError_doc.
  - vm_compute. reflexivity.
  - vm_compute. repeat (try (left; reflexivity); right).
Qed.

Lemma parse_error_surfaces_with_content_witness :
  parse_and_validate_response
    (completion (open_fence ++ lit "{'a':1,}" ++ close_fence))
  = ([Enter ResponseParsing], Raise (JSONDecodeError (lit "{'a':1,}")))
  /\ forall doc,
      JSONDecodeError (lit "{'a':1,}") = JSONDecodeError doc ->
      doc = unfence (open_fence ++ lit "{'a':1,}" ++ close_fence).
Proof.
  apply (proj1 parse_error_surfaces_with_content
           (completion (open_fence ++ lit "{'a':1,}" ++ close_fence))
           (open_fence ++ lit "{'a':1,}" ++ close_fence)
           (JSONDecodeError (lit "{'a':1,}"))); reflexivity.
Defined.

(** C4, as stated, fails: the content made of an opening bracket, an
    [int] literal of 4301 digits, a comma and a closing bracket is no
    JSON, as the same text with the literal [1] shows, and response
    parsing ends with the [ValueError] of [int()], which carries no
    content, not with a [JSONDecodeError]. *)
Lemma parse_error_without_content_counterexample :
  json_loads (str "[1,]") = Raise (JSONDecodeError (str "[1,]"))
  /\ json_loads (unfence Scenarios.overlong_int) = Raise ValueError
  /\ parse_and_validate_response (completion Scenarios.overlong_int)
     = ([Enter ResponseParsing], Raise ValueError).
Proof. repeat split; vm_compute; reflexivity. Qed.

(** C5.  Content with only one of the two fence markers is left as it
    is and handed to [json.loads] unchanged; with the open fence alone
    the outcome is always a parse error, as for the content made of the
    open fence, a newline and [{"a":1}]. *)
Theorem half_fenced_content_unmodified :
  (forall response content,
      first_content response = Ok content ->
      (startswith content open_fence = true
       /\ endswith content close_fence = false)
      \/ (startswith content open_fence = false
          /\ endswith content close_fence = true) ->
      unfence content = content
      /\ snd (parse_and_validate_response response) = json_loads content)
  /\ (forall response content,
         first_content response = Ok content ->
         startswith content open_fence = true ->
         endswith content close_fence = false ->
         snd (parse_and_validate_response response)
         = Raise (JSONDecodeError content))
  /\ snd (parse_and_validate_response (completion open_only_a1))
     = Raise (JSONDecodeError open_only_a1).
Proof.
  assert (H : forall response content,
             first_content response = Ok content ->
             startswith content open_fence && endswith content close_fence
             = false ->
             unfence content = content
             /\ snd (parse_and_validate_response response) = json_loads content).
  { intros response content Hc Hf.
    rewrite parse_and_validate_response_result, Hc. cbn [rbind].
    now rewrite (unfence_unfenced _ Hf). }
  split; [|split].
  - intros response content Hc [[Hs He]|[Hs He]];
      apply H; auto; now rewrite Hs, He.
  - intros response content Hc Hs He.
    destruct (H response content Hc) as [_ ->]; [now rewrite Hs, He|].
    now apply json_loads_fenced.
  - vm_compute. reflexivity.
Qed.

Lemma half_fenced_content_unmodified_witness :
  (unfence open_only_a1 = open_only_a1
   /\ snd (parse_and_validate_response (completion open_only_a1))
      = json_loads open_only_a1)
  /\ snd (parse_and_validate_response (completion open_only_a1))
     = Raise (JSONDecodeError open_only_a1).
Proof.
  split.
  - apply (proj1 half_fenced_content_unmodified
             (completion open_only_a1) open_only_a1);
      [reflexivity | left; split; reflexivity].
  - apply (proj1 (proj2 half_fenced_content_unmodified)
             (completion open_only_a1) open_only_a1); reflexivity.
Defined.

(** C6.  The fenced text, open fence, newline, [{"a":1}], newline,
    close fence, and the bare text [{"a":1}] both parse to the value
    [{"a": 1}].  In general a text that [json.loads] accepts is parsed to
    the same value as it stands and, when it has no surrounding
    whitespace, between an open fence with a newline and a newline with
    a close fence; fenced content is parsed as its stripped body. *)
Theorem parsing_invariant_under_fencing :
  snd (parse_and_validate_response (completion fenced_a1)) = Ok a1
  /\ snd (parse_and_validate_response (completion unfenced_a1)) = Ok a1
  /\ (forall text v,
         json_loads text = Ok v ->
         snd (parse_and_validate_response (completion text)) = Ok v)
  /\ (forall text v,
         json_loads text = Ok v -> strip text = text ->
         snd (parse_and_validate_response
                (completion (open_fence ++ nl ++ text ++ nl ++ close_fence)))
         = Ok v)
  /\ (forall body,
         snd (parse_and_validate_response
                (completion (open_fence ++ body ++ close_fence)))
         = json_loads (strip body)).
Proof.
  assert (F : forall body,
             snd (parse_and_validate_response
                    (completion (open_fence ++ body ++ close_fence)))
             = json_loads (strip body)).
  { intros body. rewrite parse_and_validate_response_result.
    cbn [first_content completion choices message content rbind].
    now rewrite unfence_fenced. }
  split; [|split; [|split; [|split]]].
  - vm_compute. reflexivity.
  - vm_compute. reflexivity.
  - intros text v Hv. rewrite parse_and_validate_response_result.
    cbn [first_content completion choices message content rbind].
    rewrite unfence_unfenced; [exact Hv|].
    destruct (startswith text open_fence) eqn:Hs; [|reflexivity].
    apply json_loads_fenced in Hs. congruence.
  - intros text v Hv Hs.
    replace (open_fence ++ nl ++ text ++ nl ++ close_fence)
      with (open_fence ++ (nl ++ text ++ nl) ++ close_fence)
      by now rewrite <- !app_assoc.
    rewrite F, strip_nl_padded; auto.
    intros ->. discriminate Hv.
  - exact F.
Qed.

Lemma parsing_invariant_under_fencing_witness :
  snd (parse_and_validate_response (completion unfenced_a1)) = Ok a1
  /\ snd (parse_and_validate_response
            (completion (open_fence ++ nl ++ unfenced_a1 ++ nl ++ close_fence)))
     = Ok a1.
Proof.
  split.
  - apply (proj1 (proj2 (proj2 parsing_invariant_under_fencing))).
    reflexivity.
  - apply (proj1 (proj2 (proj2 (proj2 parsing_invariant_under_fencing))));
      reflexivity.
Defined.

Lemma forallb_rev {A} (f : A -> bool) l : forallb f (rev l) = forallb f l.
Proof.
  induction l as [|a l IH]; [reflexivity|]. simpl.
  rewrite forallb_app, IH. simpl. rewrite andb_true_r. apply andb_comm.
Qed.

Lemma lstrip_split s :
  exists lead, s = lead ++ lstrip s /\ forallb isspace lead = true.
Proof.
  induction s as [|c s (lead & Hs & Hl)]; [now exists []|]. simpl.
  destruct (isspace c) eqn:E.
  - exists (c :: lead). simpl. rewrite E, Hl. split; [now f_equal | reflexivity].
  - now exists [].
Qed.

Lemma rstrip_split s :
  exists trail, s = rstrip s ++ trail /\ forallb isspace trail = true.
Proof.
  destruct (lstrip_split (rev s)) as (lead & Hs & Hl).
  exists (rev lead). split.
  - unfold rstrip. rewrite <- rev_app_distr, <- Hs. now rewrite rev_involutive.
  - now rewrite forallb_rev.
Qed.

Lemma lstrip_first s :
  match lstrip s with
  | [] => True
  | c :: _ => isspace c = false
  end.
Proof.
  induction s as [|c s IH]; [exact I|]. simpl.
  destruct (isspace c) eqn:E; [exact IH | exact E].
Qed.

(** What [strip] gives has no whitespace at either end. *)
Lemma strip_bare s : Scenarios.bare (strip s) = true.
Proof.
  unfold Scenarios.bare, strip. apply andb_true_iff. split.
  - destruct (rstrip_split (lstrip s)) as (trail & Hs & _).
    pose proof (lstrip_first s) as Hf.
    destruct (rstrip (lstrip s)) as [|c r]; [reflexivity|].
    rewrite Hs in Hf. simpl in Hf. now rewrite Hf.
  - unfold rstrip. rewrite rev_involutive.
    pose proof (lstrip_first (rev (lstrip s))) as Hf.
    destruct (lstrip (rev (lstrip s))); [reflexivity | now rewrite Hf].
Qed.

Lemma lstrip_spaces lead s :
  forallb isspace lead = true -> lstrip (lead ++ s) = lstrip s.
Proof.
  induction lead as [|c lead IH]; [reflexivity|]. simpl.
  intros H. apply andb_true_iff in H as [-> H]. now apply IH.
Qed.

(** Whitespace around text that has none of its own is all that [strip]
    removes. *)
Lemma strip_padded lead text trail :
  text <> [] -> strip text = text ->
  forallb isspace lead = true -> forallb isspace trail = true ->
  strip (lead ++ text ++ trail) = text.
Proof.
  intros Hne H Hl Ht. destruct (strip_fixed text H) as [L R].
  unfold strip. rewrite (lstrip_spaces _ _ Hl).
  destruct text as [|c text]; [congruence|].
  simpl in L. rewrite <- app_comm_cons. simpl.
  destruct (isspace c) eqn:E.
  - pose proof (lstrip_length text) as Hlen. rewrite L in Hlen.
    simpl in Hlen. lia.
  - rewrite app_comm_cons. unfold rstrip. rewrite rev_app_distr.
    rewrite lstrip_spaces by now rewrite forallb_rev.
    exact R.
Qed.

Lemma lstrip_bare_head s :
  match s with
  | [] => true
  | c :: _ => negb (isspace c)
  end = true ->
  lstrip s = s.
Proof.
  destruct s as [|c s]; [reflexivity|]. simpl.
  intros H. apply negb_true_iff in H. now rewrite H.
Qed.

(** Text with whitespace at neither end is left alone by [strip]. *)
Lemma bare_strip_fixed s : Scenarios.bare s = true -> strip s = s.
Proof.
  unfold Scenarios.bare. intros H. apply andb_true_iff in H as [Hh Hl].
  unfold strip, rstrip. rewrite (lstrip_bare_head _ Hh).
  rewrite (lstrip_bare_head _ Hl). apply rev_involutive.
Qed.

Lemma isspace_iff c :
  isspace c = true <-> In c Scenarios.whitespace_code_points.
Proof.
  split.
  - unfold isspace. rewrite !orb_true_iff, !andb_true_iff.
    rewrite !N.leb_le, !N.eqb_eq. unfold Scenarios.whitespace_code_points.
    simpl. lia.
  - unfold Scenarios.whitespace_code_points. simpl.
    intros H. repeat (destruct H as [<-|H]; [reflexivity|]). contradiction.
Qed.

(** C10.  Content that starts with the open fence and ends with the
    close fence is the two markers around a body; the slice [[7:-3]]
    removes exactly the 7 characters of the one and the 3 of the other,
    the body is stripped of surrounding whitespace, and the result is
    what [json.loads] is given.  The stripping takes from the body a
    run of whitespace at its head and one at its end and leaves a text
    with whitespace at neither, whitespace being the code points of
    [str.isspace()].  Hence a JSON text with any whitespace around it
    inside the fences parses to its value: so does [{"a":1}] between
    blanks and newlines, and between form feeds, which are no JSON
    whitespace, so that without the stripping the slice would be
    refused. *)
Theorem fenced_content_sliced_and_stripped :
  (forall response content,
      first_content response = Ok content ->
      startswith content open_fence = true ->
      endswith content close_fence = true ->
      exists body,
        content = open_fence ++ body ++ close_fence
        /\ List.length open_fence = 7%nat /\ List.length close_fence = 3%nat
        /\ slice 7 (-3) content = body
        /\ unfence content = strip body
        /\ snd (parse_and_validate_response response)
           = json_loads (strip body))
  /\ snd (parse_and_validate_response (completion fenced_padded_a1)) = Ok a1
  /\ (forall body,
         Scenarios.bare (strip body) = true
         /\ exists lead trail,
             body = lead ++ strip body ++ trail
             /\ forallb isspace lead = true
             /\ forallb isspace trail = true)
  /\ (forall c, isspace c = true <-> In c Scenarios.whitespace_code_points)
  /\ (forall text v lead trail,
         json_loads text = Ok v ->
         Scenarios.bare text = true ->
         forallb isspace lead = true ->
         forallb isspace trail = true ->
         snd (parse_and_validate_response
                (completion (open_fence ++ (lead ++ text ++ trail)
                                        ++ close_fence)))
         = Ok v)
  /\ (snd (parse_and_validate_response
             (completion Scenarios.fenced_form_feed_a1)) = Ok a1
      /\ json_loads (slice 7 (-3) Scenarios.fenced_form_feed_a1)
         = Raise (JSONDecodeError (slice 7 (-3) Scenarios.fenced_form_feed_a1))).
Proof.
  split; [|split; [|split; [|split; [|split]]]].
  - intros response content Hc Hs He.
    destruct (fenced_inv content Hs He) as [body ->].
    exists body. repeat split.
    + now apply slice_7_m3.
    + apply unfence_fenced.
    + rewrite parse_and_validate_response_result, Hc. cbn [rbind].
      now rewrite unfence_fenced.
  - vm_compute. reflexivity.
  - intros body. split; [apply strip_bare|].
    destruct (lstrip_split body) as (lead & Hb & Hl).
    destruct (rstrip_split (lstrip body)) as (trail & Hs & Ht).
    exists lead, trail. split; [|now split].
    unfold strip. now rewrite <- Hs.
  - apply isspace_iff.
  - intros text v lead trail Hv Hb Hl Ht.
    rewrite parse_and_validate_response_result.
    cbn [first_content completion choices message content rbind].
    rewrite unfence_fenced, strip_padded; auto.
    + intros ->. discriminate Hv.
    + apply bare_strip_fixed. exact Hb.
  - split; vm_compute; reflexivity.
Qed.

Lemma fenced_content_sliced_and_stripped_witness :
  (exists body,
      fenced_padded_a1 = open_fence ++ body ++ close_fence
      /\ List.length open_fence = 7%nat /\ List.length close_fence = 3%nat
      /\ slice 7 (-3) fenced_padded_a1 = body
      /\ unfence fenced_padded_a1 = strip body
      /\ snd (parse_and_validate_response (completion fenced_padded_a1))
         = json_loads (strip body))
  /\ snd (parse_and_validate_response
            (completion (open_fence
                           ++ ([12; 160]%N ++ unfenced_a1 ++ [8239; 10]%N)
                           ++ close_fence)))
     = Ok a1.
Proof.
  split.
  - apply (proj1 fenced_content_sliced_and_stripped
             (completion fenced_padded_a1) fenced_padded_a1); reflexivity.
  - apply (proj1 (proj2 (proj2 (proj2 (proj2
             fenced_content_sliced_and_stripped))))
             unfenced_a1 a1 [12; 160]%N [8239; 10]%N); reflexivity.
Defined.

(** * Further properties of the code *)

Import Observe Scenarios.

(** ** The destination URI *)

Lemma span_until_inv stop s a b :
  span_until stop s = (a, b) ->
  s = a ++ b /\ ~ In stop a /\ (b = [] \/ exists b', b = stop :: b').
Proof.
  revert a b; induction s as [|c s IH]; simpl; intros a b H.
  - injection H as <- <-. auto.
  - destruct (c =? stop)%N eqn:E.
    + injection H as <- <-. apply N.eqb_eq in E. subst.
      repeat split; auto. right. eauto.
    + destruct (span_until stop s) as [a' b'] eqn:Es.
      injection H as <- <-. destruct (IH _ _ eq_refl) as (-> & Hn & Hb).
      apply N.eqb_neq in E. repeat split; auto.
      intros [->|Hin]; [congruence | auto].
Qed.

Lemma span_until_stop stop a b :
  ~ In stop a -> span_until stop (a ++ stop :: b) = (a, stop :: b).
Proof.
  induction a as [|c a IH]; simpl; intros Hn.
  - now rewrite N.eqb_refl.
  - destruct (c =? stop)%N eqn:E.
    + apply N.eqb_eq in E. tauto.
    + rewrite IH; tauto.
Qed.

Lemma span_until_end stop a :
  ~ In stop a -> span_until stop a = (a, []).
Proof.
  induction a as [|c a IH]; simpl; intros Hn; [reflexivity|].
  destruct (c =? stop)%N eqn:E.
  - apply N.eqb_eq in E. tauto.
  - rewrite IH; tauto.
Qed.

(** X1.  The pattern of [async_detect_document] accepts exactly the
    URIs made of [gs://], a bucket that is not empty and has no slash, a
    slash, and a prefix that is not empty and runs to the end of the
    URI or to its first line break; the two groups are that bucket and
    that prefix. *)
Theorem match_gs_uri_iff uri bucket prefix :
  match_gs_uri uri = Some (bucket, prefix)
  <-> bucket <> [] /\ ~ In 47%N bucket
      /\ prefix <> [] /\ ~ In 10%N prefix
      /\ exists tail,
          uri = str "gs://" ++ bucket ++ 47%N :: prefix ++ tail
          /\ (tail = [] \/ exists t, tail = 10%N :: t).
Proof.
  unfold match_gs_uri. split.
  - destruct (startswith uri (str "gs://")) eqn:Hs; [|discriminate].
    apply startswith_app in Hs as [r ->].
    change (skipn 5 (str "gs://" ++ r)) with r.
    destruct (span_until 47 r) as [b after] eqn:Eb.
    destruct (span_until_inv _ _ _ _ Eb) as (-> & Hnb & Hafter).
    destruct b as [|b0 b]; [discriminate|].
    destruct after as [|slash tl]; [discriminate|].
    destruct Hafter as [|[b' Hb']]; [discriminate|]. injection Hb' as -> ->.
    destruct (span_until 10 b') as [p rest] eqn:Ep.
    destruct (span_until_inv _ _ _ _ Ep) as (-> & Hnp & Hrest).
    cbn [fst]. destruct p as [|p0 p]; [discriminate|].
    intros H. injection H as <- <-.
    repeat split; try discriminate; auto.
    exists rest. split; [reflexivity | exact Hrest].
  - intros (Hb & Hnb & Hp & Hnp & tail & -> & Htail).
    replace (startswith _ (str "gs://")) with true
      by (symmetry; apply startswith_app; eauto).
    change (skipn 5 (str "gs://" ++ ?x)) with x.
    change (skipn 5 (str "gs://" ++ bucket ++ 47%N :: prefix ++ tail))
      with (bucket ++ 47%N :: prefix ++ tail).
    rewrite (span_until_stop _ _ _ Hnb).
    destruct bucket as [|b0 b]; [congruence|].
    assert (E : fst (span_until 10 (prefix ++ tail)) = prefix).
    { destruct Htail as [->|[t ->]].
      - now rewrite app_nil_r, span_until_end.
      - now rewrite span_until_stop. }
    rewrite E. destruct prefix; [congruence | reflexivity].
Qed.

Lemma match_gs_uri_iff_witness :
  match_gs_uri (str "gs://" ++ str "docs" ++ 47%N :: str "out/a.json" ++ [])
  = Some (str "docs", str "out/a.json").
Proof.
  apply (proj2 (match_gs_uri_iff
                  (str "gs://" ++ str "docs" ++ 47%N :: str "out/a.json" ++ [])
                  (str "docs") (str "out/a.json"))).
  repeat split; try discriminate.
  - vm_compute. intuition discriminate.
  - vm_compute. intuition discriminate.
  - exists []. split; [reflexivity | left; reflexivity].
Defined.

(** ** OCR submission *)

Lemma requests_of_app t t' :
  requests_of (t ++ t') = requests_of t ++ requests_of t'.
Proof.
  induction t as [|ev t IH]; simpl; [reflexivity|].
  destruct ev; simpl; now rewrite IH.
Qed.

Lemma printed_app t t' : printed (t ++ t') = printed t ++ printed t'.
Proof.
  induction t as [|ev t IH]; simpl; [reflexivity|].
  destruct ev; simpl; now rewrite IH.
Qed.

Lemma error_logs_app t t' :
  error_logs (t ++ t') = error_logs t ++ error_logs t'.
Proof.
  induction t as [|ev t IH]; simpl; [reflexivity|].
  destruct ev as [[] ? ?| | |]; simpl; now rewrite IH.
Qed.

(** [async_detect_document], outcome by outcome of the calls it makes. *)
Lemma async_detect_document_run w source destination mime_type batch_size :
  let submitted :=
    [Enter OcrSubmission;
     Request (Annotate source destination mime_type batch_size)] in
  let waited :=
    submitted ++ [Log Info (str "Waiting for the operation to finish.") None;
                  Request (WaitOperation 420)] in
  GoogleVisionClient.async_detect_document
    w source destination mime_type batch_size =
  match async_batch_annotate_files w source destination mime_type batch_size with
  | Raise e => (submitted, Raise e)
  | Ok _ =>
    match operation_result w 420 with
    | Raise e => (waited, Raise e)
    | Ok _ =>
      match storage_Client w with
      | Raise e => (waited, Raise e)
      | Ok _ =>
        match destination with
        | None => (waited, Raise TypeError)
        | Some uri =>
          match match_gs_uri uri with
          | None => (waited, Raise AttributeError)
          | Some (bucket_name, prefix) =>
            match list_blobs w bucket_name prefix with
            | Raise e =>
              (waited ++ [Request (ListBlobs bucket_name prefix)], Raise e)
            | Ok listing =>
              (waited ++ [Request (ListBlobs bucket_name prefix)],
               Ok (filter (fun blob => negb (endswith (name blob) (str "/")))
                          listing))
            end
          end
        end
      end
    end
  end.
Proof.
  cbv zeta.
  unfold GoogleVisionClient.async_detect_document, call, lift, info, emit.
  destruct (async_batch_annotate_files w _ _ _ _); [|reflexivity].
  destruct (operation_result w 420); [|reflexivity].
  destruct (storage_Client w); [|reflexivity].
  destruct destination as [uri|]; [|reflexivity].
  destruct (match_gs_uri uri) as [[bucket_name prefix]|]; [|reflexivity].
  cbn [bind fst snd app].
  now destruct (list_blobs w bucket_name prefix).
Qed.

(** X2.  When [async_detect_document] returns, the job was submitted
    and awaited once with the timeout 420, the destination is a
    [gs://bucket/prefix] URI, the bucket was listed once under that
    prefix, and the blobs returned are the listing, in its order,
    without the entries whose name ends with a slash. *)
Theorem async_detect_document_returns
        w source destination mime_type batch_size blob_list :
  snd (GoogleVisionClient.async_detect_document
         w source destination mime_type batch_size) = Ok blob_list ->
  exists uri bucket_name prefix listing,
    destination = Some uri
    /\ match_gs_uri uri = Some (bucket_name, prefix)
    /\ list_blobs w bucket_name prefix = Ok listing
    /\ blob_list
       = filter (fun blob => negb (is_directory_marker (name blob))) listing
    /\ Forall (fun blob => is_directory_marker (name blob) = false) blob_list
    /\ requests_of (fst (GoogleVisionClient.async_detect_document
                           w source destination mime_type batch_size))
       = [Annotate source destination mime_type batch_size;
          WaitOperation 420;
          ListBlobs bucket_name prefix].
Proof.
  rewrite async_detect_document_run. cbv zeta.
  destruct (async_batch_annotate_files w _ _ _ _); [|discriminate].
  destruct (operation_result w 420); [|discriminate].
  destruct (storage_Client w); [|discriminate].
  destruct destination as [uri|]; [|discriminate].
  destruct (match_gs_uri uri) as [[bucket_name prefix]|] eqn:Eu; [|discriminate].
  destruct (list_blobs w bucket_name prefix) as [listing|] eqn:El;
    [|discriminate].
  cbn [fst snd]. intros H. injection H as <-.
  exists uri, bucket_name, prefix, listing. repeat split; auto.
  apply Forall_forall. intros b Hb. apply filter_In in Hb as [_ Hb].
  now apply negb_true_iff in Hb.
Qed.

Lemma async_detect_document_returns_witness :
  exists uri bucket_name prefix listing,
    Some (str "gs://docs/out/") = Some uri
    /\ match_gs_uri uri = Some (bucket_name, prefix)
    /\ list_blobs world_with_marker bucket_name prefix = Ok listing
    /\ [blob_page1; blob_page2]
       = filter (fun blob => negb (is_directory_marker (name blob))) listing
    /\ Forall (fun blob => is_directory_marker (name blob) = false)
              [blob_page1; blob_page2]
    /\ requests_of (fst (GoogleVisionClient.async_detect_document
                           world_with_marker (Some (str "gs://docs/in/scan.pdf"))
                           (Some (str "gs://docs/out/"))
                           (str "application/pdf") 2))
       = [Annotate (Some (str "gs://docs/in/scan.pdf"))
                   (Some (str "gs://docs/out/")) (str "application/pdf") 2;
          WaitOperation 420;
          ListBlobs bucket_name prefix].
Proof.
  apply (async_detect_document_returns
           world_with_marker (Some (str "gs://docs/in/scan.pdf"))
           (Some (str "gs://docs/out/")) (str "application/pdf") 2
           [blob_page1; blob_page2]).
  reflexivity.
Defined.

(** X3.  When the wait on the OCR job raises, a timeout included, the
    document processor ends with that exception after two requests, the
    submission and the wait: the output location is not listed and no
    blob list, empty or not, is produced. *)
Theorem ocr_wait_failure_surfaces w source destination prompt_id e :
  async_batch_annotate_files w source destination (str "application/pdf") 2
  = Ok tt ->
  operation_result w 420 = Raise e ->
  snd (process_document w source destination prompt_id) = Raise e
  /\ requests_of (fst (process_document w source destination prompt_id))
     = [Annotate source destination (str "application/pdf") 2;
        WaitOperation 420]
  /\ steps_of (fst (process_document w source destination prompt_id))
     = [OcrSubmission].
Proof.
  intros Hs Hw. rewrite process_document_run. cbv zeta.
  rewrite async_detect_document_run. cbv zeta. rewrite Hs, Hw.
  cbn [fst snd]. repeat split.
Qed.

Lemma ocr_wait_failure_surfaces_witness :
  snd (pipeline world_timeout) = Raise TimeoutError
  /\ requests_of (fst (pipeline world_timeout))
     = [Annotate (Some (str "gs://docs/in/scan.pdf"))
                 (Some (str "gs://docs/out/")) (str "application/pdf") 2;
        WaitOperation 420]
  /\ steps_of (fst (pipeline world_timeout)) = [OcrSubmission].
Proof.
  apply (ocr_wait_failure_surfaces
           world_timeout (Some (str "gs://docs/in/scan.pdf"))
           (Some (str "gs://docs/out/")) (Some (str "pp-extract-1"))
           TimeoutError); reflexivity.
Defined.

(** X4.  A destination that is absent or is no [gs://bucket/prefix] URI
    is found out only after the OCR job has been submitted and awaited:
    the run then ends with a [TypeError] (absent) or an [AttributeError]
    (no match), and the bucket is not listed. *)
Theorem bad_destination_detected_after_job w source destination prompt_id :
  async_batch_annotate_files w source destination (str "application/pdf") 2
  = Ok tt ->
  operation_result w 420 = Ok tt ->
  storage_Client w = Ok tt ->
  bad_destination destination = true ->
  snd (process_document w source destination prompt_id)
  = Raise (destination_error destination)
  /\ requests_of (fst (process_document w source destination prompt_id))
     = [Annotate source destination (str "application/pdf") 2;
        WaitOperation 420].
Proof.
  intros Hs Hw Hc Hd. rewrite process_document_run. cbv zeta.
  rewrite async_detect_document_run. cbv zeta. rewrite Hs, Hw, Hc.
  unfold bad_destination in Hd.
  destruct destination as [uri|]; [|now split].
  destruct (match_gs_uri uri); [discriminate | now split].
Qed.

Lemma bad_destination_detected_after_job_witness :
  snd (pipeline world_bucket_only) = Raise AttributeError
  /\ requests_of (fst (pipeline world_bucket_only))
     = [Annotate (Some (str "gs://docs/in/scan.pdf"))
                 (Some (str "gs://docs")) (str "application/pdf") 2;
        WaitOperation 420].
Proof.
  apply (bad_destination_detected_after_job
           world_bucket_only (Some (str "gs://docs/in/scan.pdf"))
           (Some (str "gs://docs")) (Some (str "pp-extract-1")));
    reflexivity.
Defined.

(** ** Text combination *)

Lemma pages_loop_acc pages :
  forall combined_text,
    pages_loop pages combined_text
    = match pages_loop pages [] with
      | Ok text => Ok (combined_text ++ text)
      | Raise e => Raise e
      end.
Proof.
  induction pages as [|page pages IH]; intros acc; simpl.
  - now rewrite app_nil_r.
  - destruct (getitem page (str "fullTextAnnotation")) as [a|]; [|reflexivity].
    cbn [rbind]. destruct (getitem a (str "text")) as [t|]; [|reflexivity].
    cbn [rbind]. destruct (add_str t nl) as [line|]; [|reflexivity].
    cbn [rbind app]. rewrite (IH (acc ++ line)), (IH line).
    destruct (pages_loop pages []); [|reflexivity].
    simpl. now rewrite app_assoc.
Qed.

Lemma blob_body_acc blob combined_text :
  snd (blob_body blob combined_text)
  = match snd (blob_body blob []) with
    | Ok text => Ok (combined_text ++ text)
    | Raise e => Raise e
    end.
Proof.
  rewrite !blob_body_result.
  destruct (download_as_bytes blob) as [data|]; [|reflexivity]. cbn [rbind].
  destruct (decode_utf8 data) as [s|]; [|reflexivity]. cbn [rbind].
  destruct (json_loads s) as [response|]; [|reflexivity]. cbn [rbind].
  destruct (getitem response (str "responses")) as [r|]; [|reflexivity].
  cbn [rbind]. destruct (iter r) as [pages|]; [|reflexivity]. cbn [rbind].
  apply pages_loop_acc.
Qed.

Lemma blobs_loop_acc blob_list :
  forall combined_text,
    snd (blobs_loop blob_list combined_text)
    = match snd (blobs_loop blob_list []) with
      | Ok text => Ok (combined_text ++ text)
      | Raise e => Raise e
      end.
Proof.
  induction blob_list as [|blob blob_list IH]; intros acc.
  - simpl. now rewrite app_nil_r.
  - rewrite !blobs_loop_cons. rewrite (blob_body_acc blob acc).
    destruct (snd (blob_body blob [])) as [t|]; [|reflexivity].
    cbn [app]. rewrite (IH (acc ++ t)), (IH t).
    destruct (snd (blobs_loop blob_list [])); [|reflexivity].
    simpl. now rewrite app_assoc.
Qed.

Lemma blobs_loop_app l1 l2 :
  forall combined_text,
    snd (blobs_loop (l1 ++ l2) combined_text)
    = match snd (blobs_loop l1 combined_text) with
      | Ok text => snd (blobs_loop l2 text)
      | Raise e => Raise e
      end.
Proof.
  induction l1 as [|blob l1 IH]; intros acc; [reflexivity|].
  rewrite <- app_comm_cons, !blobs_loop_cons.
  destruct (snd (blob_body blob acc)); [apply IH | reflexivity].
Qed.

(** X5.  Text combination distributes over the concatenation of blob
    lists: the text of [l1 ++ l2] is the text of [l1] followed by the
    text of [l2], and it raises what [l1] raises or else what [l2]
    raises. *)
Theorem get_combined_extract_text_app l1 l2 :
  snd (get_combined_extract_text (l1 ++ l2))
  = match snd (get_combined_extract_text l1) with
    | Raise e => Raise e
    | Ok text1 =>
      match snd (get_combined_extract_text l2) with
      | Raise e => Raise e
      | Ok text2 => Ok (text1 ++ text2)
      end
    end.
Proof.
  rewrite !get_combined_extract_text_result, blobs_loop_app.
  destruct (snd (blobs_loop l1 [])) as [text1|]; [|reflexivity].
  apply blobs_loop_acc.
Qed.

Lemma blobs_loop_trace blob_list :
  forall combined_text,
    fst (blobs_loop blob_list combined_text)
    = match blob_list with
      | [] => []
      | blob :: blob_list' =>
        Request (download_of blob)
          :: match snd (blob_body blob combined_text) with
             | Ok text => fst (blobs_loop blob_list' text)
             | Raise _ => []
             end
      end.
Proof.
  destruct blob_list as [|blob blob_list]; intros acc; [reflexivity|].
  simpl. now rewrite fst_bind, blob_body_trace.
Qed.

Lemma get_combined_extract_text_trace blob_list :
  fst (get_combined_extract_text blob_list)
  = Enter TextCombination
      :: fst (blobs_loop blob_list [])
      ++ match snd (blobs_loop blob_list []) with
         | Ok _ => [Log Info (str "Combined text extracted successfully.") None]
         | Raise _ => []
         end.
Proof.
  unfold get_combined_extract_text. rewrite fst_bind.
  cbn [emit fst snd app]. f_equal. rewrite fst_bind. reflexivity.
Qed.

(** The fetches of a loop that runs to its end: one per blob. *)
Lemma blobs_loop_trace_Ok blob_list :
  forall combined_text text,
    snd (blobs_loop blob_list combined_text) = Ok text ->
    fst (blobs_loop blob_list combined_text)
    = List.map (fun b => Request (download_of b)) blob_list.
Proof.
  induction blob_list as [|blob blob_list IH]; intros acc text H;
    [reflexivity|].
  rewrite blobs_loop_trace. rewrite blobs_loop_cons in H.
  destruct (snd (blob_body blob acc)) as [t|]; [|discriminate].
  simpl. f_equal. now apply IH with (text := text).
Qed.

(** The fetches of a loop that raises: one per blob up to the one that
    raised. *)
Lemma blobs_loop_trace_Raise blob_list :
  forall combined_text e,
    snd (blobs_loop blob_list combined_text) = Raise e ->
    exists fetched blob rest,
      blob_list = fetched ++ blob :: rest
      /\ (exists text, snd (blobs_loop fetched combined_text) = Ok text
                       /\ snd (blob_body blob text) = Raise e)
      /\ fst (blobs_loop blob_list combined_text)
         = List.map (fun b => Request (download_of b)) (fetched ++ [blob]).
Proof.
  induction blob_list as [|blob blob_list IH]; intros acc e H;
    [discriminate|].
  rewrite blobs_loop_trace. rewrite blobs_loop_cons in H.
  destruct (snd (blob_body blob acc)) as [t|e'] eqn:Eb.
  - destruct (IH _ _ H) as (fetched & b & rest & -> & (text & Hf & Hb) & Ht).
    exists (blob :: fetched), b, rest.
    split; [reflexivity|]. split.
    + exists text. split; [|exact Hb].
      now rewrite blobs_loop_cons, Eb.
    + simpl. now rewrite Ht.
  - injection H as ->. exists [], blob, blob_list.
    split; [reflexivity|]. split; [|reflexivity].
    exists acc. now split.
Qed.

(** X6.  What a run of text combination leaves behind.  When it
    returns, every blob was fetched once, in list order, and the record
    [Combined text extracted successfully.] closes the trace.  When it
    raises, the blobs were fetched up to the one whose processing
    raised, those after it were not fetched, and nothing is logged. *)
Theorem get_combined_extract_text_fetches blob_list :
  (forall text,
      snd (get_combined_extract_text blob_list) = Ok text ->
      fst (get_combined_extract_text blob_list)
      = Enter TextCombination
          :: List.map (fun b => Request (download_of b)) blob_list
          ++ [Log Info (str "Combined text extracted successfully.") None])
  /\ (forall e,
         snd (get_combined_extract_text blob_list) = Raise e ->
         exists fetched blob rest,
           blob_list = fetched ++ blob :: rest
           /\ (exists text,
                  snd (get_combined_extract_text fetched) = Ok text
                  /\ snd (blob_body blob text) = Raise e)
           /\ fst (get_combined_extract_text blob_list)
              = Enter TextCombination
                  :: List.map (fun b => Request (download_of b))
                              (fetched ++ [blob])).
Proof.
  split.
  - intros text H. rewrite get_combined_extract_text_result in H.
    rewrite get_combined_extract_text_trace, H.
    now rewrite (blobs_loop_trace_Ok _ _ _ H).
  - intros e H. rewrite get_combined_extract_text_result in H.
    destruct (blobs_loop_trace_Raise _ _ _ H)
      as (fetched & blob & rest & Hl & (text & Hf & Hb) & Ht).
    exists fetched, blob, rest. split; [exact Hl|]. split.
    + exists text. now rewrite get_combined_extract_text_result.
    + rewrite get_combined_extract_text_trace, H, Ht. now rewrite app_nil_r.
Qed.

Lemma get_combined_extract_text_fetches_witness :
  fst (get_combined_extract_text [blob_page1; blob_page2])
  = Enter TextCombination
      :: List.map (fun b => Request (download_of b)) [blob_page1; blob_page2]
      ++ [Log Info (str "Combined text extracted successfully.") None]
  /\ exists fetched blob rest,
      [blob_page1; blob_truncated; blob_page2] = fetched ++ blob :: rest
      /\ (exists text,
             snd (get_combined_extract_text fetched) = Ok text
             /\ snd (blob_body blob text)
                = Raise (JSONDecodeError (lit "{'responses':[")))
      /\ fst (get_combined_extract_text
                [blob_page1; blob_truncated; blob_page2])
         = Enter TextCombination
             :: List.map (fun b => Request (download_of b))
                         (fetched ++ [blob]).
Proof.
  split.
  - apply (proj1 (get_combined_extract_text_fetches [blob_page1; blob_page2])
                 (str "Page1" ++ nl ++ str "Page2" ++ nl)).
    reflexivity.
  - apply (proj2 (get_combined_extract_text_fetches
                    [blob_page1; blob_truncated; blob_page2])).
    reflexivity.
Defined.

Lemma get_combined_extract_text_single blob :
  snd (get_combined_extract_text [blob]) = snd (blob_body blob []).
Proof.
  rewrite get_combined_extract_text_result, blobs_loop_cons.
  now destruct (snd (blob_body blob [])).
Qed.

Lemma blob_body_Raise_acc blob e :
  snd (blob_body blob []) = Raise e ->
  forall combined_text, snd (blob_body blob combined_text) = Raise e.
Proof. intros H acc. now rewrite blob_body_acc, H. Qed.

(** X7.  The first blob that cannot be processed decides the outcome:
    after any number of well-formed blobs, a blob that makes text
    combination raise on its own makes the whole list raise the same
    exception, whatever follows it; the blobs before it and the blob
    itself are fetched, those after it are not. *)
Theorem first_failing_blob_decides before blob after e :
  forallb well_formed before = true ->
  snd (get_combined_extract_text [blob]) = Raise e ->
  snd (get_combined_extract_text (before ++ blob :: after)) = Raise e
  /\ requests_of (fst (get_combined_extract_text (before ++ blob :: after)))
     = List.map download_of (before ++ [blob]).
Proof.
  intros Hw Hb. rewrite get_combined_extract_text_single in Hb.
  assert (Hr : snd (blobs_loop (before ++ blob :: after) []) = Raise e).
  { rewrite blobs_loop_app, (blobs_loop_well_formed _ _ Hw), blobs_loop_cons.
    now rewrite (blob_body_Raise_acc _ _ Hb). }
  split; [now rewrite get_combined_extract_text_result|].
  rewrite get_combined_extract_text_trace, Hr, app_nil_r. cbn [requests_of].
  clear Hr. generalize (@nil N).
  induction before as [|b before IH]; intros acc.
  - cbn [app]. rewrite blobs_loop_trace, (blob_body_Raise_acc _ _ Hb).
    reflexivity.
  - simpl in Hw. apply andb_true_iff in Hw as [Hwb Hw].
    rewrite <- app_comm_cons, blobs_loop_trace.
    unfold well_formed in Hwb.
    destruct (page_texts b) as [ts|] eqn:Ets; [|discriminate].
    rewrite (blob_body_well_formed _ _ _ Ets). cbn [requests_of List.map app].
    f_equal. now apply IH.
Qed.

Lemma first_failing_blob_decides_witness :
  snd (get_combined_extract_text
         ([blob_page1; blob_page2] ++ blob_unreachable :: [blob_page1]))
  = Raise (ServiceError (str "404"))
  /\ requests_of
       (fst (get_combined_extract_text
               ([blob_page1; blob_page2] ++ blob_unreachable :: [blob_page1])))
     = List.map download_of ([blob_page1; blob_page2] ++ [blob_unreachable]).
Proof.
  apply (first_failing_blob_decides
           [blob_page1; blob_page2] blob_unreachable [blob_page1]
           (ServiceError (str "404"))); reflexivity.
Defined.

Lemma field_None_getitem_error key j :
  field key j = None -> getitem j (str key) = Raise (missing_key_error j key).
Proof. destruct j; simpl; try reflexivity. now intros ->. Qed.

(** X8.  Which exception a payload ends text combination with: the
    exception of the fetch when the blob cannot be fetched, a
    [UnicodeDecodeError] when the bytes are not UTF-8, the exception of
    [json.loads] itself when it raises on the decoded text, which
    carries that text when it is a [JSONDecodeError], and for a JSON
    value without [responses] a [KeyError] naming the key when the value
    is an object, a [TypeError] otherwise. *)
Theorem payload_exception blob :
  (forall e,
      download_as_bytes blob = Raise e ->
      snd (get_combined_extract_text [blob]) = Raise e)
  /\ (forall data e,
         download_as_bytes blob = Ok data ->
         decode_utf8 data = Raise e ->
         snd (get_combined_extract_text [blob]) = Raise UnicodeDecodeError)
  /\ (forall data text e,
         download_as_bytes blob = Ok data ->
         decode_utf8 data = Ok text ->
         json_loads text = Raise e ->
         snd (get_combined_extract_text [blob]) = Raise e
         /\ forall doc, e = JSONDecodeError doc -> doc = text)
  /\ (forall v,
         payload blob = Some v ->
         field "responses" v = None ->
         snd (get_combined_extract_text [blob])
         = Raise (missing_key_error v "responses")).
Proof.
  rewrite get_combined_extract_text_single, blob_body_result.
  split; [|split; [|split]].
  - now intros e ->.
  - intros data e -> H. cbn [rbind]. unfold decode_utf8 in *.
    now destruct (utf8_decode _).
  - intros data text e -> Hd H. cbn [rbind]. rewrite Hd. cbn [rbind].
    split; [now rewrite H|].
    intros doc ->. now apply json_loads_JSONDecodeError_doc.
  - unfold payload. intros v Hp Hf.
    destruct (download_as_bytes blob) as [data|]; [|discriminate].
    cbn [rbind].
    destruct (decode_utf8 data) as [text|]; [|discriminate]. cbn [rbind].
    destruct (json_loads text) as [v'|]; [|discriminate].
    injection Hp as ->. cbn [rbind].
    now rewrite (field_None_getitem_error _ _ Hf).
Qed.

Lemma payload_exception_witness :
  snd (get_combined_extract_text [blob_unreachable])
  = Raise (ServiceError (str "404"))
  /\ snd (get_combined_extract_text [blob_not_utf8]) = Raise UnicodeDecodeError
  /\ snd (get_combined_extract_text [blob_truncated])
     = Raise (JSONDecodeError (lit "{'responses':["))
  /\ snd (get_combined_extract_text [blob_no_responses])
     = Raise (KeyError (str "responses")).
Proof.
  split; [|split; [|split]].
  - apply (proj1 (payload_exception blob_unreachable)). reflexivity.
  - apply (proj1 (proj2 (payload_exception blob_not_utf8))
                 [xff; xfe] UnicodeDecodeError); reflexivity.
  - apply (proj1 (proj2 (proj2 (payload_exception blob_truncated)))
                 (lit_bytes "{'responses':[") (lit "{'responses':[")
                 (JSONDecodeError (lit "{'responses':["))); reflexivity.
  - apply (proj2 (proj2 (proj2 (payload_exception blob_no_responses)))
                 (JObj [(str "pages", JArr [])])); reflexivity.
Defined.

Lemma pages_loop_page_error good page rest ts e :
  traverse page_text good = Some ts ->
  page_error page = Some e ->
  forall combined_text,
    pages_loop (good ++ page :: rest) combined_text = Raise e.
Proof.
  intros Hg Hp. revert ts Hg.
  induction good as [|p good IH]; intros ts Hg acc.
  - cbn [app pages_loop]. unfold page_error in Hp.
    destruct (field "fullTextAnnotation" page) as [a|] eqn:Ea.
    + rewrite (field_getitem _ _ _ Ea). cbn [rbind].
      destruct (field "text" a) as [v|] eqn:Ev.
      * rewrite (field_getitem _ _ _ Ev). cbn [rbind].
        destruct v; try discriminate; injection Hp as <-; reflexivity.
      * rewrite (field_None_getitem_error _ _ Ev). now injection Hp as <-.
    + rewrite (field_None_getitem_error _ _ Ea). now injection Hp as <-.
  - simpl in Hg.
    destruct (page_text p) as [t|] eqn:Et; [|discriminate].
    destruct (traverse page_text good) as [ts'|] eqn:Ets; [|discriminate].
    rewrite <- app_comm_cons.
    change (p :: good ++ page :: rest) with ([p] ++ good ++ page :: rest).
    assert (H1 : pages_loop [p] acc = Ok (acc ++ t ++ nl)).
    { rewrite (pages_loop_texts [p] [t]); [|simpl; now rewrite Et].
      simpl. now rewrite app_nil_r. }
    simpl in H1. simpl.
    destruct (getitem p (str "fullTextAnnotation")) as [a|]; [|discriminate].
    cbn [rbind] in *.
    destruct (getitem a (str "text")) as [v|]; [|discriminate].
    cbn [rbind] in *.
    destruct (add_str v nl) as [line|]; [|discriminate].
    cbn [rbind] in *. now apply IH with (ts := ts').
Qed.

(** X9.  Which exception a page ends text combination with.  In a blob
    whose pages before it all carry their text, the first page that
    does not decides: a page or annotation that is an object without
    the key raises a [KeyError] naming [fullTextAnnotation] or [text], a
    page or annotation that is no object raises a [TypeError], and so
    does a [text] that is not a string.  The pages before it leave no
    text behind. *)
Theorem page_exception blob good page rest ts e :
  responses blob = Some (good ++ page :: rest) ->
  traverse page_text good = Some ts ->
  page_error page = Some e ->
  snd (get_combined_extract_text [blob]) = Raise e.
Proof.
  intros Hr Hg Hp.
  rewrite get_combined_extract_text_single, blob_body_result.
  unfold responses in Hr.
  destruct (download_as_bytes blob) as [data|]; [|discriminate]. cbn [rbind].
  destruct (decode_utf8 data) as [text|]; [|discriminate]. cbn [rbind].
  destruct (json_loads text) as [v|]; [|discriminate]. cbn [rbind].
  destruct (field "responses" v) as [[]|] eqn:Er; try discriminate.
  injection Hr as ->. rewrite (field_getitem _ _ _ Er). cbn [rbind iter].
  now apply pages_loop_page_error with (ts := ts).
Qed.

Lemma page_exception_witness :
  snd (get_combined_extract_text [blob_text_number]) = Raise TypeError
  /\ snd (get_combined_extract_text [blob_no_text])
     = Raise (KeyError (str "text"))
  /\ snd (get_combined_extract_text [blob_blank_page])
     = Raise (KeyError (str "fullTextAnnotation")).
Proof.
  split; [|split].
  - apply (page_exception
             blob_text_number []
             (JObj [(str "fullTextAnnotation", JObj [(str "text", JInt 7)])])
             [] []); reflexivity.
  - apply (page_exception
             blob_no_text []
             (JObj [(str "fullTextAnnotation", JObj [])]) [] []); reflexivity.
  - apply (page_exception blob_blank_page [] (JObj []) [] []); reflexivity.
Defined.

(** X10.  A [responses] member that is no list.  The loop of the script
    draws from whatever the member is: an empty object or an empty
    string gives no page and no error; an object with members or a
    string with characters gives strings, which cannot be indexed by
    [fullTextAnnotation], hence a [TypeError]; a number, a boolean or
    [null] cannot be looped over, hence a [TypeError] as well. *)
Theorem responses_not_a_list blob v r :
  payload blob = Some v ->
  field "responses" v = Some r ->
  (forall pages, r <> JArr pages) ->
  snd (get_combined_extract_text [blob])
  = match r with
    | JObj [] | JStr [] => Ok []
    | _ => Raise TypeError
    end.
Proof.
  intros Hp Hf Hr.
  rewrite get_combined_extract_text_single, blob_body_result.
  unfold payload in Hp.
  destruct (download_as_bytes blob) as [data|]; [|discriminate]. cbn [rbind].
  destruct (decode_utf8 data) as [text|]; [|discriminate]. cbn [rbind].
  destruct (json_loads text) as [v'|]; [|discriminate].
  injection Hp as ->. cbn [rbind].
  rewrite (field_getitem _ _ _ Hf). cbn [rbind].
  destruct r as [| | | |s|pages|d]; try reflexivity.
  - now destruct s.
  - now destruct (Hr pages).
  - now destruct d.
Qed.

Lemma responses_not_a_list_witness :
  snd (get_combined_extract_text [blob_responses_empty_object]) = Ok []
  /\ snd (get_combined_extract_text [blob_responses_object]) = Raise TypeError.
Proof.
  split.
  - apply (responses_not_a_list
             blob_responses_empty_object
             (JObj [(str "responses", JObj [])]) (JObj []));
      [reflexivity | reflexivity | discriminate].
  - apply (responses_not_a_list
             blob_responses_object
             (JObj [(str "responses", JObj [(str "a", JInt 1)])])
             (JObj [(str "a", JInt 1)]));
      [reflexivity | reflexivity | discriminate].
Defined.

(** ** The gateway and the whole run *)

Lemma send_to_portkey_run w prompt_id text :
  PortkeyClient.send_to_portkey w prompt_id text =
  match completions_create w prompt_id text with
  | Ok response =>
    ([Enter CompletionRequest;
      Log Info (str "Sending request to Portkey with payload.") None;
      Request (Completions prompt_id text);
      Log Info (str "Portkey response received.") None],
     Ok response)
  | Raise e =>
    ([Enter CompletionRequest;
      Log Info (str "Sending request to Portkey with payload.") None;
      Request (Completions prompt_id text);
      Log Error (str "Error sending request to Portkey: ") (Some e)],
     Raise e)
  end.
Proof.
  unfold PortkeyClient.send_to_portkey, call.
  now destruct (completions_create w prompt_id text).
Qed.

Lemma async_detect_document_error_logs w source destination mime_type batch_size :
  error_logs (fst (GoogleVisionClient.async_detect_document
                     w source destination mime_type batch_size)) = [].
Proof.
  rewrite async_detect_document_run. cbv zeta.
  destruct (async_batch_annotate_files w _ _ _ _); [|reflexivity].
  destruct (operation_result w 420); [|reflexivity].
  destruct (storage_Client w); [|reflexivity].
  destruct destination as [uri|]; [|reflexivity].
  destruct (match_gs_uri uri) as [[bucket_name prefix]|]; [|reflexivity].
  now destruct (list_blobs w bucket_name prefix).
Qed.

Lemma blobs_loop_error_logs blob_list :
  forall combined_text,
    error_logs (fst (blobs_loop blob_list combined_text)) = [].
Proof.
  induction blob_list as [|blob blob_list IH]; intros acc; [reflexivity|].
  rewrite blobs_loop_trace. cbn [error_logs].
  destruct (snd (blob_body blob acc)); [apply IH | reflexivity].
Qed.

Lemma get_combined_extract_text_error_logs blob_list :
  error_logs (fst (get_combined_extract_text blob_list)) = [].
Proof.
  rewrite get_combined_extract_text_trace. cbn [error_logs].
  rewrite error_logs_app, blobs_loop_error_logs.
  now destruct (snd (blobs_loop blob_list [])).
Qed.

Lemma parse_and_validate_response_error_logs response :
  error_logs (fst (parse_and_validate_response response)) = [].
Proof.
  rewrite parse_and_validate_response_run.
  destruct (first_content response) as [content|]; [|reflexivity].
  now destruct (json_loads (unfence content)).
Qed.

Lemma parse_and_validate_response_requests response :
  requests_of (fst (parse_and_validate_response response)) = [].
Proof.
  rewrite parse_and_validate_response_run.
  destruct (first_content response) as [content|]; [|reflexivity].
  now destruct (json_loads (unfence content)).
Qed.

Lemma last_step_app_singleton t s t' :
  steps_of t' = [s] -> last_step (t ++ t') = Some s.
Proof.
  intros H. unfold last_step. now rewrite steps_of_app, H, rev_app_distr.
Qed.

(** The error records inside [process_document]: none, but for the one
    of [send_to_portkey] when the gateway call raises. *)
Lemma process_document_error_logs w source destination prompt_id :
  error_logs (fst (process_document w source destination prompt_id))
  = match snd (process_document w source destination prompt_id),
          last_step (fst (process_document w source destination prompt_id))
    with
    | Raise e, Some CompletionRequest =>
      [(str "Error sending request to Portkey: ", Some e)]
    | _, _ => []
    end.
Proof.
  rewrite process_document_run. cbv zeta.
  pose proof (async_detect_document_error_logs
                w source destination (str "application/pdf") 2) as L1.
  pose proof (async_detect_document_steps
                w source destination (str "application/pdf") 2) as S1.
  destruct (snd (GoogleVisionClient.async_detect_document _ _ _ _ _))
    as [blob_list|e]; cbn [fst snd].
  2: { rewrite L1. unfold last_step. now rewrite S1. }
  pose proof (get_combined_extract_text_error_logs blob_list) as L2.
  pose proof (get_combined_extract_text_steps blob_list) as S2.
  destruct (snd (get_combined_extract_text blob_list)) as [text|e];
    cbn [fst snd].
  2: { rewrite error_logs_app, L1, L2.
       now rewrite (last_step_app_singleton _ _ _ S2). }
  rewrite send_to_portkey_run.
  destruct (completions_create w prompt_id text) as [response|e];
    cbn [fst snd].
  - rewrite !app_assoc.
    rewrite (last_step_app_singleton
               _ _ _ (parse_and_validate_response_steps response)).
    rewrite !error_logs_app, L1, L2, parse_and_validate_response_error_logs.
    now destruct (snd (parse_and_validate_response response)).
  - rewrite app_assoc.
    rewrite (last_step_app_singleton _ CompletionRequest) by reflexivity.
    now rewrite !error_logs_app, L1, L2.
Qed.

(** X11.  Where a failed run is logged.  Once the clients are
    constructed, a run whose pipeline returns logs no error, and a run
    whose pipeline raises logs the exception once, in [main]; only when
    the gateway call is what raised is there a record before it, the one
    of [send_to_portkey], with the same exception.  Failures of OCR
    submission, text combination and response parsing are not logged
    where they occur. *)
Theorem main_error_records w :
  clients_constructed w ->
  error_logs (fst (main w))
  = match snd (pipeline w) with
    | Ok _ => []
    | Raise e => failure_records (last_step (fst (pipeline w))) e
    end.
Proof.
  intros Hc. rewrite (main_run w Hc).
  pose proof (process_document_error_logs
                w (getenv w (str "INPUT_DOCUMENT_PATH"))
                (getenv w (str "OUTPUT_DOCUMENT_PATH"))
                (getenv w (str "PORTKEY_PROMPT_ID"))) as L.
  fold (pipeline w) in L.
  destruct (snd (pipeline w)) as [record|e]; cbn [fst];
    rewrite !error_logs_app, L; cbn [main_preamble error_logs app].
  - now destruct (last_step (fst (pipeline w))).
  - unfold failure_records.
    now destruct (last_step (fst (pipeline w))) as [[]|].
Qed.

Lemma main_error_records_witness :
  error_logs (fst (main world_gateway_down))
  = [(str "Error sending request to Portkey: ", Some (ServiceError (str "503")));
     (str "Document processing failed: ", Some (ServiceError (str "503")))]
  /\ error_logs (fst (main world_not_json))
     = [(str "Document processing failed: ",
         Some (JSONDecodeError (str "not json")))]
  /\ error_logs (fst (main world_ok)) = [].
Proof.
  split; [|split].
  - exact (eq_trans (main_error_records world_gateway_down
                                        (conj eq_refl eq_refl)) eq_refl).
  - exact (eq_trans (main_error_records world_not_json
                                        (conj eq_refl eq_refl)) eq_refl).
  - exact (eq_trans (main_error_records world_ok (conj eq_refl eq_refl))
                    eq_refl).
Defined.

Lemma filter_completions_map_download blobs :
  filter is_completions (List.map download_of blobs) = [].
Proof. induction blobs as [|b blobs IH]; [reflexivity | exact IH]. Qed.

Lemma async_detect_document_no_completions
      w source destination mime_type batch_size :
  filter is_completions
         (requests_of (fst (GoogleVisionClient.async_detect_document
                              w source destination mime_type batch_size)))
  = [].
Proof.
  rewrite async_detect_document_run. cbv zeta.
  destruct (async_batch_annotate_files w _ _ _ _); [|reflexivity].
  destruct (operation_result w 420); [|reflexivity].
  destruct (storage_Client w); [|reflexivity].
  destruct destination as [uri|]; [|reflexivity].
  destruct (match_gs_uri uri) as [[bucket_name prefix]|]; [|reflexivity].
  now destruct (list_blobs w bucket_name prefix).
Qed.

Lemma blobs_loop_requests blob_list :
  forall combined_text,
  exists fetched rest,
    blob_list = fetched ++ rest
    /\ requests_of (fst (blobs_loop blob_list combined_text))
       = List.map download_of fetched.
Proof.
  induction blob_list as [|blob blob_list IH]; intros acc.
  - now exists [], [].
  - rewrite blobs_loop_trace. cbn [requests_of].
    destruct (snd (blob_body blob acc)) as [t|].
    + destruct (IH t) as (fetched & rest & -> & ->).
      now exists (blob :: fetched), rest.
    + now exists [blob], blob_list.
Qed.

Lemma get_combined_extract_text_requests blob_list :
  exists fetched rest,
    blob_list = fetched ++ rest
    /\ requests_of (fst (get_combined_extract_text blob_list))
       = List.map download_of fetched.
Proof.
  destruct (blobs_loop_requests blob_list []) as (fetched & rest & Hl & Hr).
  exists fetched, rest. split; [exact Hl|].
  rewrite get_combined_extract_text_trace. cbn [requests_of].
  rewrite requests_of_app, Hr.
  destruct (snd (blobs_loop blob_list [])); simpl; now rewrite app_nil_r.
Qed.

(** X12.  The gateway is called at most once in a run of the document
    processor, whatever it answers: exactly when OCR submission and
    text combination both returned, and then with the prompt identifier
    it was given and with the combined text, be it empty. *)
Theorem gateway_called_once_with_combined_text
        w source destination prompt_id :
  filter is_completions
         (requests_of (fst (process_document w source destination prompt_id)))
  = match snd (GoogleVisionClient.async_detect_document
                 w source destination (str "application/pdf") 2) with
    | Raise _ => []
    | Ok blob_list =>
      match snd (get_combined_extract_text blob_list) with
      | Raise _ => []
      | Ok combined_text => [Completions prompt_id combined_text]
      end
    end.
Proof.
  rewrite process_document_run. cbv zeta.
  pose proof (async_detect_document_no_completions
                w source destination (str "application/pdf") 2) as R1.
  destruct (snd (GoogleVisionClient.async_detect_document _ _ _ _ _))
    as [blob_list|e]; cbn [fst]; [|exact R1].
  assert (R2 : filter is_completions
                      (requests_of (fst (get_combined_extract_text blob_list)))
               = []).
  { destruct (get_combined_extract_text_requests blob_list)
      as (fetched & rest & _ & ->).
    apply filter_completions_map_download. }
  destruct (snd (get_combined_extract_text blob_list)) as [text|e];
    cbn [fst].
  2: { now rewrite requests_of_app, filter_app, R1, R2. }
  rewrite send_to_portkey_run.
  destruct (completions_create w prompt_id text) as [response|e];
    cbn [fst snd];
    rewrite !requests_of_app, !filter_app, R1, R2;
    rewrite ?parse_and_validate_response_requests; reflexivity.
Qed.

(** X13.  No directory marker is ever fetched: in every run of the
    document processor, no blob whose name ends with a slash is
    downloaded. *)
Theorem directory_markers_never_fetched w source destination prompt_id :
  forallb (fun r => negb (fetches_directory_marker r))
          (requests_of (fst (process_document w source destination prompt_id)))
  = true.
Proof.
  rewrite process_document_run. cbv zeta.
  rewrite async_detect_document_run. cbv zeta.
  destruct (async_batch_annotate_files w _ _ _ _); [|reflexivity].
  destruct (operation_result w 420); [|reflexivity].
  destruct (storage_Client w); [|reflexivity].
  destruct destination as [uri|]; [|reflexivity].
  destruct (match_gs_uri uri) as [[bucket_name prefix]|]; [|reflexivity].
  destruct (list_blobs w bucket_name prefix) as [listing|]; [|reflexivity].
  cbn [fst snd].
  set (blob_list := filter _ listing).
  assert (D : forallb (fun r => negb (fetches_directory_marker r))
                      (requests_of (fst (get_combined_extract_text blob_list)))
              = true).
  { destruct (get_combined_extract_text_requests blob_list)
      as (fetched & rest & Hl & ->).
    apply forallb_forall. intros r Hr. apply in_map_iff in Hr as (b & <- & Hb).
    assert (Hin : In b blob_list) by (rewrite Hl; apply in_or_app; now left).
    apply filter_In in Hin as [_ Hn]. exact Hn. }
  destruct (snd (get_combined_extract_text blob_list)) as [text|];
    cbn [fst].
  2: { rewrite requests_of_app, forallb_app, D. reflexivity. }
  rewrite send_to_portkey_run.
  destruct (completions_create w prompt_id text) as [response|];
    cbn [fst snd];
    rewrite !requests_of_app, !forallb_app, D;
    rewrite ?parse_and_validate_response_requests; reflexivity.
Qed.

Lemma requests_of_map_download blobs :
  requests_of (List.map (fun b => Request (download_of b)) blobs)
  = List.map download_of blobs.
Proof. induction blobs as [|b blobs IH]; simpl; now rewrite ?IH. Qed.

Lemma get_combined_extract_text_requests_Ok blob_list text :
  snd (get_combined_extract_text blob_list) = Ok text ->
  requests_of (fst (get_combined_extract_text blob_list))
  = List.map download_of blob_list.
Proof.
  intros H. rewrite get_combined_extract_text_result in H.
  rewrite get_combined_extract_text_trace, H. cbn [requests_of].
  rewrite requests_of_app, (blobs_loop_trace_Ok _ _ _ H).
  rewrite requests_of_map_download. simpl. now rewrite app_nil_r.
Qed.

(** X14.  Where a returned record comes from.  When the document
    processor returns a record, the record is what response parsing
    made of the gateway's answer to the combined text of the blobs that
    OCR submission returned, and the requests of the run are, in this
    order: one annotation job for a PDF with batch size 2, one wait of
    420, one listing, one fetch per blob and one completion. *)
Theorem process_document_returns w source destination prompt_id record :
  snd (process_document w source destination prompt_id) = Ok record ->
  exists uri bucket_name prefix blob_list combined_text response,
    destination = Some uri
    /\ match_gs_uri uri = Some (bucket_name, prefix)
    /\ snd (GoogleVisionClient.async_detect_document
              w source destination (str "application/pdf") 2) = Ok blob_list
    /\ snd (get_combined_extract_text blob_list) = Ok combined_text
    /\ completions_create w prompt_id combined_text = Ok response
    /\ snd (parse_and_validate_response response) = Ok record
    /\ requests_of (fst (process_document w source destination prompt_id))
       = [Annotate source destination (str "application/pdf") 2;
          WaitOperation 420;
          ListBlobs bucket_name prefix]
         ++ List.map download_of blob_list
         ++ [Completions prompt_id combined_text].
Proof.
  rewrite process_document_run. cbv zeta.
  rewrite async_detect_document_run. cbv zeta.
  destruct (async_batch_annotate_files w _ _ _ _); [|discriminate].
  destruct (operation_result w 420); [|discriminate].
  destruct (storage_Client w); [|discriminate].
  destruct destination as [uri|]; [|discriminate].
  destruct (match_gs_uri uri) as [[bucket_name prefix]|] eqn:Eu;
    [|discriminate].
  destruct (list_blobs w bucket_name prefix) as [listing|]; [|discriminate].
  cbn [fst snd].
  set (blob_list := filter _ listing).
  destruct (snd (get_combined_extract_text blob_list)) as [text|] eqn:E2;
    [|discriminate].
  rewrite send_to_portkey_run.
  destruct (completions_create w prompt_id text) as [response|] eqn:E3;
    [|discriminate].
  cbn [fst snd]. intros H.
  exists uri, bucket_name, prefix, blob_list, text, response.
  repeat split; auto.
  rewrite !requests_of_app, parse_and_validate_response_requests.
  rewrite (get_combined_extract_text_requests_Ok _ _ E2).
  reflexivity.
Qed.

Lemma process_document_returns_witness :
  exists uri bucket_name prefix blob_list combined_text response,
    Some (str "gs://docs/out/") = Some uri
    /\ match_gs_uri uri = Some (bucket_name, prefix)
    /\ snd (GoogleVisionClient.async_detect_document
              world_with_marker (Some (str "gs://docs/in/scan.pdf"))
              (Some (str "gs://docs/out/")) (str "application/pdf") 2)
       = Ok blob_list
    /\ snd (get_combined_extract_text blob_list) = Ok combined_text
    /\ completions_create world_with_marker (Some (str "pp-extract-1"))
                          combined_text = Ok response
    /\ snd (parse_and_validate_response response) = Ok a1
    /\ requests_of (fst (pipeline world_with_marker))
       = [Annotate (Some (str "gs://docs/in/scan.pdf"))
                   (Some (str "gs://docs/out/")) (str "application/pdf") 2;
          WaitOperation 420;
          ListBlobs bucket_name prefix]
         ++ List.map download_of blob_list
         ++ [Completions (Some (str "pp-extract-1")) combined_text].
Proof.
  apply (process_document_returns
           world_with_marker (Some (str "gs://docs/in/scan.pdf"))
           (Some (str "gs://docs/out/")) (Some (str "pp-extract-1")) a1).
  reflexivity.
Defined.

Lemma filter_all_markers (listing : list Blob) :
  forallb (fun blob => is_directory_marker (name blob)) listing = true ->
  filter (fun blob => negb (endswith (name blob) (str "/"))) listing = [].
Proof.
  induction listing as [|b listing IH]; [reflexivity|]. simpl.
  intros H. apply andb_true_iff in H as [Hb H].
  unfold is_directory_marker in Hb. rewrite Hb. simpl. now apply IH.
Qed.

(** X15.  An output location with nothing to read: when the listing is
    empty or holds directory markers only, nothing is fetched and the
    gateway is still called, with the empty text; the outcome of the run
    is then that of parsing its answer. *)
Theorem empty_text_is_forwarded
        w source uri bucket_name prefix listing prompt_id :
  async_batch_annotate_files w source (Some uri) (str "application/pdf") 2
  = Ok tt ->
  operation_result w 420 = Ok tt ->
  storage_Client w = Ok tt ->
  match_gs_uri uri = Some (bucket_name, prefix) ->
  list_blobs w bucket_name prefix = Ok listing ->
  forallb (fun blob => is_directory_marker (name blob)) listing = true ->
  requests_of (fst (process_document w source (Some uri) prompt_id))
  = [Annotate source (Some uri) (str "application/pdf") 2;
     WaitOperation 420;
     ListBlobs bucket_name prefix;
     Completions prompt_id []]
  /\ snd (process_document w source (Some uri) prompt_id)
     = match completions_create w prompt_id [] with
       | Ok response => snd (parse_and_validate_response response)
       | Raise e => Raise e
       end.
Proof.
  intros Hs Hw Hc Hu Hl Hm. rewrite process_document_run. cbv zeta.
  rewrite async_detect_document_run. cbv zeta.
  rewrite Hs, Hw, Hc, Hu, Hl, (filter_all_markers _ Hm).
  assert (G : get_combined_extract_text []
              = ([Enter TextCombination;
                  Log Info (str "Combined text extracted successfully.") None],
                 Ok [])) by reflexivity.
  cbn [fst snd]. rewrite G. cbn [fst snd]. rewrite send_to_portkey_run.
  destruct (completions_create w prompt_id []) as [response|e];
    cbn [fst snd]; (split; [|reflexivity]);
    rewrite !requests_of_app, ?parse_and_validate_response_requests;
    reflexivity.
Qed.

Lemma empty_text_is_forwarded_witness :
  requests_of (fst (pipeline world_no_output_blobs))
  = [Annotate (Some (str "gs://docs/in/scan.pdf"))
              (Some (str "gs://docs/out/")) (str "application/pdf") 2;
     WaitOperation 420;
     ListBlobs (str "docs") (str "out/");
     Completions (Some (str "pp-extract-1")) []]
  /\ snd (pipeline world_no_output_blobs)
     = match completions_create world_no_output_blobs
                                (Some (str "pp-extract-1")) [] with
       | Ok response => snd (parse_and_validate_response response)
       | Raise e => Raise e
       end.
Proof.
  apply (empty_text_is_forwarded
           world_no_output_blobs (Some (str "gs://docs/in/scan.pdf"))
           (str "gs://docs/out/") (str "docs") (str "out/") [blob_marker]
           (Some (str "pp-extract-1"))); reflexivity.
Defined.

(** ** [main], outcome by outcome *)

Lemma process_document_printed w source destination prompt_id :
  printed (fst (process_document w source destination prompt_id)) = [].
Proof.
  pose proof (process_document_no_output w source destination prompt_id) as H.
  induction (fst (process_document w source destination prompt_id))
    as [|ev t IH]; [reflexivity|].
  simpl in H. apply andb_true_iff in H as [Hev H].
  destruct ev; simpl in *; try discriminate; now apply IH.
Qed.

(** X16.  What a successful run prints.  When the clients are
    constructed and the pipeline returns a record, the script calls
    [print] exactly twice, with the line [Extracted JSON Output:] and
    with the record dumped with indent 4, in this order; no error is
    logged and the exit status is 0. *)
Theorem main_success_prints w record :
  clients_constructed w ->
  snd (pipeline w) = Ok record ->
  printed (fst (main w))
  = [Line (str "Extracted JSON Output:"); JsonDumps record 4]
  /\ error_logs (fst (main w)) = []
  /\ exit_status (main w) = 0%Z.
Proof.
  intros Hc Hp. rewrite (main_run w Hc), Hp. cbn [fst].
  pose proof (process_document_error_logs
                w (getenv w (str "INPUT_DOCUMENT_PATH"))
                (getenv w (str "OUTPUT_DOCUMENT_PATH"))
                (getenv w (str "PORTKEY_PROMPT_ID"))) as L.
  fold (pipeline w) in L. rewrite Hp in L.
  repeat split.
  - rewrite !printed_app. unfold pipeline.
    now rewrite process_document_printed.
  - now rewrite !error_logs_app, L.
Qed.

Lemma main_success_prints_witness :
  printed (fst (main world_ok))
  = [Line (str "Extracted JSON Output:"); JsonDumps a1 4]
  /\ error_logs (fst (main world_ok)) = []
  /\ exit_status (main world_ok) = 0%Z.
Proof.
  apply (main_success_prints world_ok a1); [split|]; reflexivity.
Defined.

(** X17.  The exit status tells of the clients only.  It is 0 exactly
    when both clients could be constructed, whatever became of the
    pipeline; when the vision client cannot be constructed the
    exception leaves [main] after its first log record, and when the
    gateway client cannot, after the third: in both cases no pipeline
    step is entered and no error is logged. *)
Theorem exit_status_iff_clients_constructed w :
  (exit_status (main w) = 0%Z <-> clients_constructed w)
  /\ (forall e,
         ImageAnnotatorClient w = Raise e ->
         main w = ([Log Info (str "Initialize Vision Client.") None], Raise e))
  /\ (forall e,
         ImageAnnotatorClient w = Ok tt ->
         Portkey w (getenv w (str "PORTKEY_API_KEY"))
                 (str "https://api.portkey.ai/v1") = Raise e ->
         main w = ([Log Info (str "Initialize Vision Client.") None;
                    Log Info (str "Initialize Text Extractor") None;
                    Log Info (str "Initialized PortKey Client.") None],
                   Raise e)).
Proof.
  assert (V : forall e,
             ImageAnnotatorClient w = Raise e ->
             main w = ([Log Info (str "Initialize Vision Client.") None],
                       Raise e)).
  { intros e H. unfold main, ClientFactory.create_vision_client,
      GoogleVisionClient.__init__. now rewrite H. }
  assert (P : forall e,
             ImageAnnotatorClient w = Ok tt ->
             Portkey w (getenv w (str "PORTKEY_API_KEY"))
                     (str "https://api.portkey.ai/v1") = Raise e ->
             main w = ([Log Info (str "Initialize Vision Client.") None;
                        Log Info (str "Initialize Text Extractor") None;
                        Log Info (str "Initialized PortKey Client.") None],
                       Raise e)).
  { intros e Hv H. unfold main, ClientFactory.create_vision_client,
      GoogleVisionClient.__init__, ClientFactory.create_portkey_client,
      PortkeyClient.__init__, ClientFactory.create_text_extractor.
    now rewrite Hv, H. }
  split; [|split; assumption].
  split.
  - intros H. unfold clients_constructed.
    destruct (ImageAnnotatorClient w) as [[]|e] eqn:Ev.
    + destruct (Portkey w (getenv w (str "PORTKEY_API_KEY"))
                        (str "https://api.portkey.ai/v1")) as [[]|e] eqn:Ep.
      * now split.
      * rewrite (P e eq_refl eq_refl) in H. discriminate.
    + rewrite (V e eq_refl) in H. discriminate.
  - intros Hc. rewrite (main_run w Hc). now destruct (snd (pipeline w)).
Qed.

Lemma exit_status_iff_clients_constructed_witness :
  exit_status (main world_timeout) = 0%Z
  /\ main world_no_credentials
     = ([Log Info (str "Initialize Vision Client.") None],
        Raise (ServiceError (str "no credentials"))).
Proof.
  split.
  - apply (proj2 (proj1 (exit_status_iff_clients_constructed world_timeout))).
    split; reflexivity.
  - apply (proj1 (proj2 (exit_status_iff_clients_constructed
                           world_no_credentials))).
    reflexivity.
Defined.

Lemma blobs_loop_no_validation_log blob_list :
  forall combined_text,
    forallb (fun ev => negb (is_validation_log ev))
            (fst (blobs_loop blob_list combined_text)) = true.
Proof.
  induction blob_list as [|blob blob_list IH]; intros acc; [reflexivity|].
  rewrite blobs_loop_trace. cbn [forallb is_validation_log negb andb].
  destruct (snd (blob_body blob acc)); [apply IH | reflexivity].
Qed.

Lemma process_document_no_validation_log w source destination prompt_id :
  forallb (fun ev => negb (is_validation_log ev))
          (fst (process_document w source destination prompt_id)) = true.
Proof.
  rewrite process_document_run. cbv zeta.
  assert (H1 : forallb (fun ev => negb (is_validation_log ev))
                       (fst (GoogleVisionClient.async_detect_document
                               w source destination (str "application/pdf") 2))
               = true).
  { rewrite async_detect_document_run. cbv zeta.
    destruct (async_batch_annotate_files w _ _ _ _); [|reflexivity].
    destruct (operation_result w 420); [|reflexivity].
    destruct (storage_Client w); [|reflexivity].
    destruct destination as [uri|]; [|reflexivity].
    destruct (match_gs_uri uri) as [[bucket_name prefix]|]; [|reflexivity].
    now destruct (list_blobs w bucket_name prefix). }
  destruct (snd (GoogleVisionClient.async_detect_document _ _ _ _ _))
    as [blob_list|]; cbn [fst]; [|exact H1].
  assert (H2 : forallb (fun ev => negb (is_validation_log ev))
                       (fst (get_combined_extract_text blob_list)) = true).
  { rewrite get_combined_extract_text_trace.
    cbn [forallb is_validation_log negb andb].
    rewrite forallb_app, blobs_loop_no_validation_log.
    now destruct (snd (blobs_loop blob_list [])). }
  destruct (snd (get_combined_extract_text blob_list)) as [text|];
    cbn [fst]; [|now rewrite forallb_app, H1, H2].
  rewrite send_to_portkey_run.
  destruct (completions_create w prompt_id text) as [response|];
    cbn [fst snd]; rewrite !forallb_app, H1, H2; [|reflexivity].
  rewrite parse_and_validate_response_run.
  destruct (first_content response) as [content|]; [|reflexivity].
  now destruct (json_loads (unfence content)).
Qed.

(** X18.  The two [except ValidationError] clauses of the script never
    run: in no run of [main], whatever the environment and the services
    do, is [Validation error in JSON response] or [Validation error in
    extracted JSON] logged. *)
Theorem validation_handlers_never_run w :
  forallb (fun ev => negb (is_validation_log ev)) (fst (main w)) = true.
Proof.
  destruct (ImageAnnotatorClient w) as [[]|e] eqn:Ev.
  - destruct (Portkey w (getenv w (str "PORTKEY_API_KEY"))
                      (str "https://api.portkey.ai/v1")) as [[]|e] eqn:Ep.
    + rewrite (main_run w (conj Ev Ep)).
      pose proof (process_document_no_validation_log
                    w (getenv w (str "INPUT_DOCUMENT_PATH"))
                    (getenv w (str "OUTPUT_DOCUMENT_PATH"))
                    (getenv w (str "PORTKEY_PROMPT_ID"))) as H.
      fold (pipeline w) in H.
      destruct (snd (pipeline w)); cbn [fst];
        now rewrite !forallb_app, H.
    + unfold main, ClientFactory.create_vision_client,
        GoogleVisionClient.__init__, ClientFactory.create_portkey_client,
        PortkeyClient.__init__, ClientFactory.create_text_extractor.
      now rewrite Ev, Ep.
  - unfold main, ClientFactory.create_vision_client,
      GoogleVisionClient.__init__. now rewrite Ev.
Qed.

(** ** Response parsing, edge by edge *)

(** X19.  Only the first choice of a completion is read, and it must be
    there and carry text: with no choice at all response parsing raises
    an [IndexError], with a first choice whose content is [None] an
    [AttributeError], in both cases before [json.loads] is reached;
    the choices after the first never change the outcome. *)
Theorem only_first_choice_is_read :
  parse_and_validate_response {| choices := [] |}
  = ([Enter ResponseParsing], Raise IndexError)
  /\ (forall others,
         parse_and_validate_response
           {| choices := {| message := {| content := None |} |} :: others |}
         = ([Enter ResponseParsing], Raise AttributeError))
  /\ (forall first others others',
         parse_and_validate_response {| choices := first :: others |}
         = parse_and_validate_response {| choices := first :: others' |}).
Proof.
  split; [reflexivity | split; [reflexivity|]].
  intros first others others'.
  now rewrite !parse_and_validate_response_run.
Qed.

Lemma lstrip_head c s : isspace c = false -> lstrip (c :: s) = c :: s.
Proof. simpl. now intros ->. Qed.

Lemma rstrip_last s c : isspace c = false -> rstrip (s ++ [c]) = s ++ [c].
Proof.
  intros H. unfold rstrip. rewrite rev_app_distr. simpl. rewrite H.
  simpl. now rewrite rev_involutive.
Qed.

(** Text between two backticks is left alone by [strip]. *)
Lemma strip_fenced body :
  strip (open_fence ++ body ++ close_fence) = open_fence ++ body ++ close_fence.
Proof.
  unfold strip.
  change (open_fence ++ body ++ close_fence)
    with (96%N :: (str "``json" ++ body ++ close_fence)).
  rewrite lstrip_head by reflexivity.
  change (96%N :: (str "``json" ++ body ++ close_fence))
    with (open_fence ++ body ++ close_fence).
  replace (open_fence ++ body ++ close_fence)
    with ((open_fence ++ body ++ str "``") ++ [96%N])
    by (now rewrite <- !app_assoc).
  now apply rstrip_last.
Qed.

(** X20.  Fences are removed once.  Content fenced twice is unwrapped
    to its inner fenced text and no further, and that text is refused:
    the outcome is a [JSONDecodeError] carrying the inner fence, its
    body and its close fence. *)
Theorem fences_removed_once body :
  parse_and_validate_response
    (completion (open_fence ++ (open_fence ++ body ++ close_fence)
                            ++ close_fence))
  = ([Enter ResponseParsing],
     Raise (JSONDecodeError (open_fence ++ body ++ close_fence))).
Proof.
  rewrite parse_and_validate_response_run.
  cbn [first_content completion choices message content].
  rewrite unfence_fenced, strip_fenced.
  now rewrite json_loads_fenced
    by (apply startswith_app; eauto).
Qed.

(** X21.  A fence around nothing.  Fenced content whose body is empty
    or whitespace only is refused: the outcome is a [JSONDecodeError]
    carrying the empty text. *)
Theorem empty_fence_rejected body :
  strip body = [] ->
  parse_and_validate_response
    (completion (open_fence ++ body ++ close_fence))
  = ([Enter ResponseParsing], Raise (JSONDecodeError [])).
Proof.
  intros H. rewrite parse_and_validate_response_run.
  cbn [first_content completion choices message content].
  now rewrite unfence_fenced, H.
Qed.

Lemma empty_fence_rejected_witness :
  parse_and_validate_response
    (completion (open_fence ++ (nl ++ str "  " ++ nl) ++ close_fence))
  = ([Enter ResponseParsing], Raise (JSONDecodeError [])).
Proof.
  apply (empty_fence_rejected (nl ++ str "  " ++ nl)). reflexivity.
Defined.

(** Text whose first character after JSON whitespace is a backtick is
    no JSON. *)
Lemma json_loads_backtick_after_ws s r :
  skip_ws s = 96%N :: r -> json_loads s = Raise (JSONDecodeError s).
Proof.
  intros H. unfold json_loads, fuel_for. rewrite H.
  destruct (startswith s [65279%N]); [reflexivity|].
  replace (2 * List.length s + 1)%nat with (S (2 * List.length s)) by lia.
  reflexivity.
Qed.

(** X22.  A backtick that is not part of a full [json] fence is fatal.
    Content whose first character, after blanks, tabs and line breaks,
    is a backtick, and which does not both start with the open fence
    and end with the close fence, is handed to [json.loads] as it is and
    refused: an unlabelled fence, a fence after leading whitespace, or
    a fence followed by a trailing line break all raise a
    [JSONDecodeError] carrying the whole content. *)
Theorem stray_backtick_rejected text r :
  skip_ws text = 96%N :: r ->
  startswith text open_fence && endswith text close_fence = false ->
  parse_and_validate_response (completion text)
  = ([Enter ResponseParsing], Raise (JSONDecodeError text)).
Proof.
  intros Hb Hf. rewrite parse_and_validate_response_run.
  cbn [first_content completion choices message content].
  rewrite (unfence_unfenced _ Hf).
  now rewrite (json_loads_backtick_after_ws _ _ Hb).
Qed.

Lemma stray_backtick_rejected_witness :
  parse_and_validate_response
    (completion (str "```" ++ nl ++ lit "{'a':1}" ++ nl ++ str "```"))
  = ([Enter ResponseParsing],
     Raise (JSONDecodeError
              (str "```" ++ nl ++ lit "{'a':1}" ++ nl ++ str "```")))
  /\ parse_and_validate_response (completion (fenced_a1 ++ nl))
     = ([Enter ResponseParsing], Raise (JSONDecodeError (fenced_a1 ++ nl)))
  /\ parse_and_validate_response (completion (str " " ++ fenced_a1))
     = ([Enter ResponseParsing],
        Raise (JSONDecodeError (str " " ++ fenced_a1))).
Proof.
  split; [|split].
  - apply (stray_backtick_rejected
             (str "```" ++ nl ++ lit "{'a':1}" ++ nl ++ str "```")
             (str "``" ++ nl ++ lit "{'a':1}" ++ nl ++ str "```"));
      reflexivity.
  - apply (stray_backtick_rejected
             (fenced_a1 ++ nl)
             (str "``json" ++ nl ++ lit "{'a':1}" ++ nl ++ close_fence ++ nl));
      reflexivity.
  - apply (stray_backtick_rejected
             (str " " ++ fenced_a1)
             (str "``json" ++ nl ++ lit "{'a':1}" ++ nl ++ close_fence));
      reflexivity.
Defined.
